(** * WebResource: the request descriptor of ms-rest-js (lib/webResource.ts)

    A shallow embedding of [WebResource.prepare], [WebResource.clone] and
    [WebResource.validateRequestProperties], with the JavaScript built-ins
    they call written out.

    Strings.  A JavaScript string is modelled by the [string] of its UTF-8
    bytes.  With that reading [encodeURIComponent] is exactly "percent-encode
    every byte that is not unreserved", and the delimiters the code looks for
    (slash, question mark, braces, dollar) are single bytes.  Two built-ins
    are written out for ASCII text only: [toUpperCase] and [toLowerCase] map
    the letters a-z and A-Z and leave every other byte alone, and the
    regular-expression class \s is the ASCII white space.  On a string of
    ASCII characters they are the built-ins; the theorems that depend on
    them for text a caller chooses are stated for such strings ([isAscii]).

    Objects.  A plain JavaScript object is an association list of its own
    properties in enumeration order (the order of for-in and Object.keys).
    Of the properties inherited from Object.prototype one matters to this
    code, the accessor __proto__: reading it yields the prototype
    ([JsV.member]) and assigning to it makes no own property
    ([JsV.assign]).  The objects are plain data: no own property stands in
    for a method that a conversion calls (valueOf, toString). *)

From Stdlib Require Import Ascii.
From stdpp Require Import base option list strings gmap fin_maps.

Local Set Warnings "-register-all".

Local Open Scope stdpp_scope.

(** ** Characters and strings *)

Module Js.

Definition inRange (lo hi : nat) (c : ascii) : bool :=
  (lo <=? nat_of_ascii c)%nat && (nat_of_ascii c <=? hi)%nat.

Definition isLower (c : ascii) : bool := inRange 97 122 c.
Definition isUpper (c : ascii) : bool := inRange 65 90 c.
Definition isDigit (c : ascii) : bool := inRange 48 57 c.

(** \w of a regular expression without the u flag: [A-Za-z0-9_]. *)
Definition isWordChar (c : ascii) : bool :=
  isLower c || isUpper c || isDigit c || Ascii.eqb c "_".

(** \s, ASCII part: tab, line feed, vertical tab, form feed, carriage
    return and space. *)
Definition isSpaceChar (c : ascii) : bool :=
  inRange 9 13 c || Ascii.eqb c " ".

Definition upperChar (c : ascii) : ascii :=
  if isLower c then ascii_of_nat (nat_of_ascii c - 32) else c.

Definition lowerChar (c : ascii) : ascii :=
  if isUpper c then ascii_of_nat (nat_of_ascii c + 32) else c.

Fixpoint mapChars (f : ascii -> ascii) (s : string) : string :=
  match s with
  | EmptyString => EmptyString
  | String c s' => String (f c) (mapChars f s')
  end.

(** String.prototype.toUpperCase / toLowerCase on a string of ASCII
    characters.  (The built-ins also map characters outside ASCII, some of
    them onto ASCII letters.) *)
Definition toUpperCase (s : string) : string := mapChars upperChar s.
Definition toLowerCase (s : string) : string := mapChars lowerChar s.

Fixpoint allChars (p : ascii -> bool) (s : string) : bool :=
  match s with
  | EmptyString => true
  | String c s' => p c && allChars p s'
  end.

(** Every character of [s] is an ASCII character: no byte of the UTF-8
    text is above 127. *)
Definition isAscii (s : string) : bool :=
  allChars (fun c => (nat_of_ascii c <? 128)%nat) s.

Fixpoint hasChar (c : ascii) (s : string) : bool :=
  match s with
  | EmptyString => false
  | String d s' => Ascii.eqb c d || hasChar c s'
  end.

Fixpoint takeWhile (p : ascii -> bool) (s : string) : string :=
  match s with
  | EmptyString => EmptyString
  | String c s' => if p c then String c (takeWhile p s') else EmptyString
  end.

Fixpoint dropWhile (p : ascii -> bool) (s : string) : string :=
  match s with
  | EmptyString => EmptyString
  | String c s' => if p c then dropWhile p s' else s
  end.

(** s.startsWith(c) and s.endsWith(c) for a one-character c. *)
Definition startsWith (c : ascii) (s : string) : bool :=
  match s with
  | String d _ => Ascii.eqb d c
  | EmptyString => false
  end.

Fixpoint endsWith (c : ascii) (s : string) : bool :=
  match s with
  | EmptyString => false
  | String d EmptyString => Ascii.eqb d c
  | String _ s' => endsWith c s'
  end.

(** s.slice(1) *)
Definition slice1 (s : string) : string :=
  match s with
  | EmptyString => EmptyString
  | String _ s' => s'
  end.

Fixpoint dropLast (s : string) : string :=
  match s with
  | EmptyString => EmptyString
  | String _ EmptyString => EmptyString
  | String c s' => String c (dropLast s')
  end.

(** s.slice(1, -1) *)
Definition slice1m1 (s : string) : string := dropLast (slice1 s).

Fixpoint dropChars (n : nat) (s : string) : string :=
  match n, s with
  | S n', String _ s' => dropChars n' s'
  | _, _ => s
  end.

(** Array.prototype.join *)
Fixpoint join (sep : string) (l : list string) : string :=
  match l with
  | [] => ""
  | [x] => x
  | x :: l' => x +:+ sep +:+ join sep l'
  end.

(** The text before and after the first occurrence of [pat] in [s]
    (String.prototype.indexOf with a string argument). *)
Fixpoint splitAtFirst (pat s : string) : option (string * string) :=
  if String.prefix pat s then Some ("", dropChars (String.length pat) s)
  else match s with
       | EmptyString => None
       | String c s' =>
           match splitAtFirst pat s' with
           | Some (before, after) => Some (String c before, after)
           | None => None
           end
       end.

(** GetSubstitution of ECMAScript for a string pattern, which has no
    captures: in the replacement text $$ stands for a dollar, $& for the
    matched text, $` for the text before the match and $' for the text after
    it; every other character, a dollar that starts none of these included,
    is copied. *)
Fixpoint getSubstitution (matched before after replacement : string) : string :=
  match replacement with
  | EmptyString => EmptyString
  | String "$" (String "$" r) => "$" +:+ getSubstitution matched before after r
  | String "$" (String "&" r) => matched +:+ getSubstitution matched before after r
  | String "$" (String "`" r) => before +:+ getSubstitution matched before after r
  | String "$" (String "'" r) => after +:+ getSubstitution matched before after r
  | String c r => String c (getSubstitution matched before after r)
  end.

(** s.replace(pat, replacement) with a string pattern: the first occurrence
    only, the replacement text expanded by [getSubstitution]. *)
Definition replace (s pat replacement : string) : string :=
  match splitAtFirst pat s with
  | None => s
  | Some (before, after) =>
      before +:+ getSubstitution pat before after replacement +:+ after
  end.

Definition hexDigit (n : nat) : ascii :=
  if (n <? 10)%nat then ascii_of_nat (48 + n) else ascii_of_nat (55 + n).

(** uriUnescaped of encodeURIComponent: letters, digits and - _ . ! ~ * ' ( ) *)
Definition isUnreserved (c : ascii) : bool :=
  isLower c || isUpper c || isDigit c || hasChar c "-_.!~*'()".

Definition encodeChar (c : ascii) : string :=
  if isUnreserved c then String c EmptyString
  else String "%" (String (hexDigit (nat_of_ascii c / 16))
                     (String (hexDigit (nat_of_ascii c mod 16)) EmptyString)).

Fixpoint encodeURIComponent (s : string) : string :=
  match s with
  | EmptyString => EmptyString
  | String c s' => encodeChar c +:+ encodeURIComponent s'
  end.

End Js.

(** ** JavaScript values *)

(** The values the options of [prepare] are made of.  Numbers, arrays and
    functions are left out: no branch of the code tells them from the values
    kept here other than through typeof and truthiness. *)
Inductive JsValue : Type :=
| JsUndefined
| JsNull
| JsBool (b : bool)
| JsString (s : string)
| JsObject (props : list (string * JsValue)).

Module JsV.

Definition typeof (v : JsValue) : string :=
  match v with
  | JsUndefined => "undefined"
  | JsNull => "object"
  | JsBool _ => "boolean"
  | JsString _ => "string"
  | JsObject _ => "object"
  end.

(** ToBoolean, as applied by if, !, && and ||. *)
Definition truthy (v : JsValue) : bool :=
  match v with
  | JsUndefined | JsNull => false
  | JsBool b => b
  | JsString s => negb (String.eqb s "")
  | JsObject _ => true
  end.

(** v == undefined *)
Definition isNullish (v : JsValue) : bool :=
  match v with
  | JsUndefined | JsNull => true
  | _ => false
  end.

(** ToString, for a plain object the text of Object.prototype.toString. *)
Definition toString (v : JsValue) : string :=
  match v with
  | JsUndefined => "undefined"
  | JsNull => "null"
  | JsBool true => "true"
  | JsBool false => "false"
  | JsString s => s
  | JsObject _ => "[object Object]"
  end.

Fixpoint lookupProp (props : list (string * JsValue)) (k : string) : JsValue :=
  match props with
  | [] => JsUndefined
  | (k', v) :: props' => if String.eqb k' k then v else lookupProp props' k
  end.

(** v[k]: the own property, undefined when there is none. *)
Definition getProp (v : JsValue) (k : string) : JsValue :=
  match v with
  | JsObject props => lookupProp props k
  | _ => JsUndefined
  end.

Definition hasOwn (props : list (string * JsValue)) (k : string) : bool :=
  existsb (fun kv => String.eqb kv.1 k) props.

(** obj[k] read from a plain object: the own property when there is one.
    Without one the name __proto__ yields the prototype, Object.prototype,
    an object that has none of the properties this module reads; the other
    names are undefined or a method of Object.prototype, which every test
    of this module treats alike. *)
Definition member (props : list (string * JsValue)) (k : string) : JsValue :=
  if hasOwn props k then lookupProp props k
  else if String.eqb k "__proto__" then JsObject [] else JsUndefined.

(** obj[k] = v on a dictionary made by {}: an own property, except under
    the name __proto__, where the setter inherited from Object.prototype
    takes the value and no own property is made. *)
Definition assign (q : gmap string JsValue) (k : string) (v : JsValue)
    : gmap string JsValue :=
  if String.eqb k "__proto__" then q else <[k := v]> q.

(** QuoteJSONString: the escapes of JSON.stringify. *)
Definition dquote : ascii := "034".

Definition quoteChar (c : ascii) : string :=
  if Ascii.eqb c dquote then String "\" (String dquote "")
  else if Ascii.eqb c "\" then "\\"
  else if Ascii.eqb c "008" then "\b"
  else if Ascii.eqb c "009" then "\t"
  else if Ascii.eqb c "010" then "\n"
  else if Ascii.eqb c "012" then "\f"
  else if Ascii.eqb c "013" then "\r"
  else if (nat_of_ascii c <? 32)%nat then
    "\u00" +:+ String (Js.lowerChar (Js.hexDigit (nat_of_ascii c / 16)))
                 (String (Js.lowerChar (Js.hexDigit (nat_of_ascii c mod 16))) "")
  else String c "".

Fixpoint quoteBody (s : string) : string :=
  match s with
  | EmptyString => EmptyString
  | String c s' => quoteChar c +:+ quoteBody s'
  end.

Definition quote (s : string) : string :=
  String dquote (quoteBody s +:+ String dquote "").

(** SerializeJSONProperty without indentation: [None] is the undefined
    that JSON.stringify yields for a value with no JSON text; a property
    holding such a value is left out of its object. *)
Fixpoint jsonText (v : JsValue) : option string :=
  match v with
  | JsUndefined => None
  | JsNull => Some "null"
  | JsBool true => Some "true"
  | JsBool false => Some "false"
  | JsString s => Some (quote s)
  | JsObject props =>
      Some ("{" +:+
            Js.join ","
              ((fix members (ps : list (string * JsValue)) : list string :=
                  match ps with
                  | [] => []
                  | (k, x) :: ps' =>
                      match jsonText x with
                      | Some t => (quote k +:+ ":" +:+ t) :: members ps'
                      | None => members ps'
                      end
                  end) props) +:+ "}")
  end.

(** JSON.stringify(v) *)
Definition JSON_stringify (v : JsValue) : JsValue :=
  match jsonText v with
  | Some t => JsString t
  | None => JsUndefined
  end.

End JsV.

(** ** Placeholders of a path template *)

Module Template.

(** One match of the regular expression /({\w*\s*\w*})/ig at the head of
    [s]: an opening brace, word characters, white space, word characters and
    a closing brace.  The three runs are greedy and no shorter run can help:
    the character after a run is outside the run's class, so only a closing
    brace right after the third run completes the match.  The white space
    is the ASCII one: on a string of ASCII characters these are the matches
    of the expression, on any string they are among them. *)
Definition placeholderAt (s : string) : option string :=
  match s with
  | String "{" r =>
      let w1 := Js.takeWhile Js.isWordChar r in
      let r1 := Js.dropWhile Js.isWordChar r in
      let sp := Js.takeWhile Js.isSpaceChar r1 in
      let r2 := Js.dropWhile Js.isSpaceChar r1 in
      let w2 := Js.takeWhile Js.isWordChar r2 in
      let r3 := Js.dropWhile Js.isWordChar r2 in
      match r3 with
      | String "}" _ => Some ("{" +:+ w1 +:+ sp +:+ w2 +:+ "}")
      | _ => None
      end
  | _ => None
  end.

(** url.match(re) with the g flag: every match, left to right.  A match
    holds one opening brace, its first character, so no match starts inside
    another one and trying every position finds the matches the engine finds
    by resuming after each match. *)
Fixpoint segments (s : string) : list string :=
  match s with
  | EmptyString => []
  | String _ s' =>
      match placeholderAt s with
      | Some item => item :: segments s'
      | None => segments s'
      end
  end.

End Template.

(** ** The header container and the store of objects *)

Definition loc := nat.

(** A reference to an object this module only passes on (form data, an
    operation specification, an abort signal, a progress callback). *)
Definition Ref := nat.

Record HttpHeader := { name : string; value : string }.

Abbreviation HttpHeaders := (gmap string HttpHeader).

Module HttpHeaders.

(** Modelled from the spec: lib/httpHeaders.ts is not among the sources.  The
    container maps a header name, compared without regard to case, to its
    value; the key of an entry is the lower-case name.  The key is that of
    the container for a name of ASCII characters. *)
Definition getHeaderKey (headerName : string) : string := Js.toLowerCase headerName.

(** Modelled from the spec: set(name, value) of the header container; a set
    under another spelling of a name overwrites the entry. *)
Definition set (h : HttpHeaders) (headerName headerValue : string) : HttpHeaders :=
  <[getHeaderKey headerName := {| name := headerName; value := headerValue |}]> h.

(** Modelled from the spec: get(name) of the header container, the value or
    absent. *)
Definition get (h : HttpHeaders) (headerName : string) : option string :=
  value <$> h !! getHeaderKey headerName.

(** Modelled from the spec: new HttpHeaders(rawHeaders) sets every entry of
    the raw dictionary on an empty container. *)
Definition ofRaw (rawHeaders : list (string * string)) : HttpHeaders :=
  fold_left (fun h kv => set h kv.1 kv.2) rawHeaders ∅.

End HttpHeaders.

(** The objects that are reached through references and changed in place:
    header containers and query dictionaries.  [uuidCount] is the number of
    identifiers the generator has handed out. *)
Record Store := {
  headerObjs : gmap loc HttpHeaders;
  queryObjs : gmap loc (gmap string JsValue);
  uuidCount : nat
}.

Definition headersAt (st : Store) (l : loc) : HttpHeaders := headerObjs st !!! l.

Definition setHeadersAt (st : Store) (l : loc) (h : HttpHeaders) : Store :=
  {| headerObjs := <[l := h]> (headerObjs st);
     queryObjs := queryObjs st;
     uuidCount := uuidCount st |}.

Definition allocHeaders (st : Store) (h : HttpHeaders) : loc * Store :=
  let l := fresh (dom (headerObjs st)) in (l, setHeadersAt st l h).

Definition allocQuery (st : Store) (q : gmap string JsValue) : loc * Store :=
  let l := fresh (dom (queryObjs st)) in
  (l, {| headerObjs := headerObjs st;
         queryObjs := <[l := q]> (queryObjs st);
         uuidCount := uuidCount st |}).

(** Modelled from the spec: clone() of the header container yields a new
    container with the same entries. *)
Definition HttpHeaders_clone (st : Store) (l : loc) : loc * Store :=
  allocHeaders st (headersAt st l).

(** ** Errors *)

(** One constructor for each throw statement of the source, in source
    order, and one for an error the serializer raises. *)
Inductive PrepareError : Type :=
| OptionsRequired
| MethodNotString
| ConflictingUrlSpec
| MissingUrlSpec
| UrlNotString
| InvalidMethod (method : string)
| PathTemplateNotString
| PathParametersRequired (pathTemplate : string)
| InvalidPathParameter (pathTemplate pathParamName : string)
| MissingPathParameterValue (pathParamName : string)
| InvalidQueryParameters
| MissingQueryParameterValue (queryParamName : string)
| SerializationError (message : string)
| MethodRequired
| UrlRequired.

Inductive Result (A : Type) : Type :=
| Ok (a : A)
| Throw (e : PrepareError).

Arguments Ok {A} a.
Arguments Throw {A} e.

#[global] Instance Result_ret : MRet Result := fun A a => Ok a.

#[global] Instance Result_bind : MBind Result := fun A B f m =>
  match m with
  | Ok a => f a
  | Throw e => Throw e
  end.

(** ** The request descriptor and the options of prepare *)

Record WebResource := {
  url : string;
  method : string;
  body : JsValue;
  headers : loc;
  rawResponse : bool;
  formData : option Ref;
  query : option loc;
  operationSpec : option Ref;
  abortSignal : option Ref;
  onUploadProgress : option Ref;
  onDownloadProgress : option Ref
}.

(** RequestPrepareOptions.  The options whose run-time type the code tests
    are values of [JsValue]; the others have the type of their declaration,
    [None] standing for an option that is left out. *)
Module Options.

Record RequestPrepareOptions := {
  method : JsValue;
  url : JsValue;
  queryParameters : JsValue;
  pathTemplate : JsValue;
  baseUrl : option string;
  pathParameters : option (list (string * JsValue));
  formData : option Ref;
  headers : option (list (string * string));
  disableClientRequestId : bool;
  body : JsValue;
  serializationMapper : JsValue;
  mappers : JsValue;
  deserializationMapper : JsValue;
  disableJsonStringifyOnBody : bool;
  bodyIsStream : bool;
  abortSignal : option Ref;
  onUploadProgress : option Ref;
  onDownloadProgress : option Ref
}.

End Options.

Abbreviation RequestPrepareOptions := Options.RequestPrepareOptions.

(** ** WebResource.prepare *)

Definition defaultBaseUrl : string := "https://management.azure.com".

Definition validMethods : list string :=
  ["GET"; "PUT"; "HEAD"; "DELETE"; "OPTIONS"; "POST"; "PATCH"; "TRACE"].

(** validMethods.indexOf(m) !== -1 *)
Definition isValidMethod (m : string) : bool :=
  existsb (String.eqb m) validMethods.

(** Truthiness of what headers.get returns. *)
Definition isSet (v : option string) : bool :=
  match v with
  | Some s => negb (String.eqb s "")
  | None => false
  end.

(** Lines 101-112: the checks on method, url and pathTemplate. *)
Definition checkOptions (options : RequestPrepareOptions) : Result unit :=
  if JsV.isNullish (Options.method options)
     || negb (String.eqb (JsV.typeof (Options.method options)) "string")
  then Throw MethodNotString
  else if JsV.truthy (Options.url options) && JsV.truthy (Options.pathTemplate options)
  then Throw ConflictingUrlSpec
  else if (JsV.isNullish (Options.pathTemplate options)
           || negb (String.eqb (JsV.typeof (Options.pathTemplate options)) "string"))
          && (JsV.isNullish (Options.url options)
              || negb (String.eqb (JsV.typeof (Options.url options)) "string"))
  then Throw MissingUrlSpec
  else Ok ().

(** Lines 115-120: a truthy options.url becomes the URL; [thisUrl] is the
    URL the descriptor has so far. *)
Definition setUrl (options : RequestPrepareOptions) (thisUrl : string) : Result string :=
  if JsV.truthy (Options.url options) then
    match Options.url options with
    | JsString u => Ok u
    | _ => Throw UrlNotString
    end
  else Ok thisUrl.

(** Lines 123-129: the verb check, skipped for a falsy method, and the
    upper-case method. *)
Definition setMethod (options : RequestPrepareOptions) : Result string :=
  match Options.method options with
  | JsString m =>
      if JsV.truthy (JsString m) && negb (isValidMethod (Js.toUpperCase m))
      then Throw (InvalidMethod m)
      else Ok (Js.toUpperCase m)
  | _ => Throw MethodNotString
  end.

(** Lines 148-170: the body of segments.forEach, for one placeholder. *)
Definition substitute (pathTemplate : string) (pathParameters : list (string * JsValue))
    (url item : string) : Result string :=
  let pathParamName := Js.slice1m1 item in
  let pathParam := JsV.member pathParameters pathParamName in
  if JsV.isNullish pathParam
     || negb (String.eqb (JsV.typeof pathParam) "string"
              || String.eqb (JsV.typeof pathParam) "object")
  then Throw (InvalidPathParameter pathTemplate pathParamName)
  else
    let url :=
      if String.eqb (JsV.typeof pathParam) "string"
      then Js.replace url item (Js.encodeURIComponent (JsV.toString pathParam))
      else url in
    if String.eqb (JsV.typeof pathParam) "object" then
      if negb (JsV.truthy (JsV.getProp pathParam "value"))
      then Throw (MissingPathParameterValue pathParamName)
      else if JsV.truthy (JsV.getProp pathParam "skipUrlEncoding")
      then Ok (Js.replace url item (JsV.toString (JsV.getProp pathParam "value")))
      else Ok (Js.replace url item
                 (Js.encodeURIComponent (JsV.toString (JsV.getProp pathParam "value"))))
    else Ok url.

(** segments.forEach: the placeholders in order, each on the URL the
    earlier ones left. *)
Fixpoint substituteAll (pathTemplate : string) (pathParameters : list (string * JsValue))
    (items : list string) (url : string) : Result string :=
  match items with
  | [] => Ok url
  | item :: items' =>
      url' ← substitute pathTemplate pathParameters url item;
      substituteAll pathTemplate pathParameters items' url'
  end.

(** Lines 132-174: the URL built from a truthy path template. *)
Definition constructUrl (options : RequestPrepareOptions) (thisUrl : string) : Result string :=
  if JsV.truthy (Options.pathTemplate options) then
    match Options.pathTemplate options with
    | JsString pathTemplate =>
        let baseUrl :=
          match Options.baseUrl options with
          | Some b => if String.eqb b "" then defaultBaseUrl else b
          | None => defaultBaseUrl
          end in
        let url :=
          baseUrl +:+ (if Js.endsWith "/" baseUrl then "" else "/")
                  +:+ (if Js.startsWith "/" pathTemplate
                       then Js.slice1 pathTemplate else pathTemplate) in
        match Template.segments url with
        | [] => Ok url
        | items =>
            match Options.pathParameters options with
            | None => Throw (PathParametersRequired pathTemplate)
            | Some pathParameters => substituteAll pathTemplate pathParameters items url
            end
        end
    | _ => Throw PathTemplateNotString
    end
  else Ok thisUrl.

(** Lines 193-211: the body of the for-in loop, for one query parameter;
    [queryParams] is the array of pairs and [q] the dictionary this.query. *)
Definition appendQueryParam (queryParamName : string) (queryParam : JsValue)
    (queryParams : list string) (q : gmap string JsValue)
    : Result (list string * gmap string JsValue) :=
  if JsV.truthy queryParam then
    if String.eqb (JsV.typeof queryParam) "string" then
      let encoded := Js.encodeURIComponent (JsV.toString queryParam) in
      Ok (queryParams ++ [queryParamName +:+ "=" +:+ encoded],
          JsV.assign q queryParamName (JsString encoded))
    else if String.eqb (JsV.typeof queryParam) "object" then
      let v := JsV.getProp queryParam "value" in
      if negb (JsV.truthy v) then Throw (MissingQueryParameterValue queryParamName)
      else if JsV.truthy (JsV.getProp queryParam "skipUrlEncoding") then
        Ok (queryParams ++ [queryParamName +:+ "=" +:+ JsV.toString v],
            JsV.assign q queryParamName v)
      else
        let encoded := Js.encodeURIComponent (JsV.toString v) in
        Ok (queryParams ++ [queryParamName +:+ "=" +:+ encoded],
            JsV.assign q queryParamName (JsString encoded))
    else Ok (queryParams, q)
  else Ok (queryParams, q).

(** for (const queryParamName in queryParameters) *)
Fixpoint forInQueryParameters (props : list (string * JsValue))
    (queryParams : list string) (q : gmap string JsValue)
    : Result (list string * gmap string JsValue) :=
  match props with
  | [] => Ok (queryParams, q)
  | (queryParamName, queryParam) :: props' =>
      '(queryParams', q') ← appendQueryParam queryParamName queryParam queryParams q;
      forInQueryParameters props' queryParams' q'
  end.

(** this.url && this.url.indexOf("?") === -1 *)
Definition needsQuestionMark (url : string) : bool :=
  negb (String.eqb url "") && negb (Js.hasChar "?" url).

(** Lines 177-215: the query string appended to the URL and the new
    dictionary this.query.  The result is the URL, this.query and the store. *)
Definition appendQueryParameters (options : RequestPrepareOptions) (thisUrl : string)
    (thisQuery : option loc) (st : Store) : Result (string * option loc * Store) :=
  if JsV.truthy (Options.queryParameters options) then
    match Options.queryParameters options with
    | JsObject queryParameters =>
        let url := if needsQuestionMark thisUrl then thisUrl +:+ "?" else thisUrl in
        '(queryParams, q) ← forInQueryParameters queryParameters [] ∅;
        let (l, st') := allocQuery st q in
        Ok (url +:+ Js.join "&" queryParams, Some l, st')
    | _ => Throw InvalidQueryParameters
    end
  else Ok (thisUrl, thisQuery, st).

(** Lines 218-223: the headers of the options set on the container. *)
Definition mergeHeaders (options : RequestPrepareOptions) (h : HttpHeaders) : HttpHeaders :=
  match Options.headers options with
  | Some headers => fold_left (fun h kv => HttpHeaders.set h kv.1 kv.2) headers h
  | None => h
  end.

Section Prepare.

(** The collaborators of lib/serializer.ts and lib/util/utils.ts, which are
    not among the sources: [serialize mappers mapper object objectName] is
    new Serializer(mappers).serialize(mapper, object, objectName), which may
    throw, and [generateUuid n] is the identifier the generator hands out
    after n earlier ones. *)
Variable serialize : JsValue -> JsValue -> JsValue -> string -> Result JsValue.
Variable generateUuid : nat -> string.

(** Lines 224-236: the defaults for accept-language, x-ms-client-request-id
    and Content-Type.  The result holds the number of identifiers handed out
    afterwards. *)
Definition defaultHeaders (options : RequestPrepareOptions) (uuids : nat)
    (h : HttpHeaders) : HttpHeaders * nat :=
  let h1 :=
    if negb (isSet (HttpHeaders.get h "accept-language"))
    then HttpHeaders.set h "accept-language" "en-US" else h in
  let '(h2, uuids') :=
    if negb (isSet (HttpHeaders.get h1 "x-ms-client-request-id"))
       && negb (Options.disableClientRequestId options)
    then (HttpHeaders.set h1 "x-ms-client-request-id" (generateUuid uuids), S uuids)
    else (h1, uuids) in
  let h3 :=
    if negb (isSet (HttpHeaders.get h2 "Content-Type"))
    then HttpHeaders.set h2 "Content-Type" "application/json; charset=utf-8" else h2 in
  (h3, uuids').

(** Lines 242-248: the headers of a body that is a stream. *)
Definition streamHeaders (h : HttpHeaders) : HttpHeaders :=
  let h1 :=
    if negb (isSet (HttpHeaders.get h "Transfer-Encoding"))
    then HttpHeaders.set h "Transfer-Encoding" "chunked" else h in
  if negb (bool_decide (HttpHeaders.get h1 "Content-Type" = Some "application/octet-stream"))
  then HttpHeaders.set h1 "Content-Type" "application/octet-stream" else h1.

(** Lines 239-257: this.body and the headers that go with it. *)
Definition setBody (options : RequestPrepareOptions) (h : HttpHeaders)
    : Result (JsValue * HttpHeaders) :=
  let body := Options.body options in
  if negb (JsV.isNullish (Options.body options)) then
    if Options.bodyIsStream options then Ok (body, streamHeaders h)
    else
      body1 ←
        (if JsV.truthy (Options.serializationMapper options)
         then serialize (Options.mappers options) (Options.serializationMapper options)
                (Options.body options) "requestBody"
         else Ok body);
      let body2 :=
        if negb (Options.disableJsonStringifyOnBody options)
        then JsV.JSON_stringify (Options.body options) else body1 in
      Ok (body2, h)
  else Ok (body, h).

(** Lines 218-257 on the store: the container this.headers is changed in
    place. *)
Definition setHeadersAndBody (options : RequestPrepareOptions) (thisHeaders : loc)
    (st : Store) : Result (JsValue * Store) :=
  let '(h, uuids) :=
    defaultHeaders options (uuidCount st) (mergeHeaders options (headersAt st thisHeaders)) in
  '(body, h') ← setBody options h;
  Ok (body, {| headerObjs := <[thisHeaders := h']> (headerObjs st);
               queryObjs := queryObjs st;
               uuidCount := uuids |}).

(** prepare(options), on the descriptor [this]; the result is [this] after
    the call. *)
Definition prepare (options : option RequestPrepareOptions) (this : WebResource)
    (st : Store) : Result (WebResource * Store) :=
  match options with
  | None => Throw OptionsRequired
  | Some options =>
      _ ← checkOptions options;
      url1 ← setUrl options (url this);
      method1 ← setMethod options;
      url2 ← constructUrl options url1;
      '(url3, query3, st3) ← appendQueryParameters options url2 (query this) st;
      '(body4, st4) ← setHeadersAndBody options (headers this) st3;
      Ok ({| url := url3;
             method := method1;
             body := body4;
             headers := headers this;
             rawResponse := rawResponse this;
             formData := formData this;
             query := query3;
             operationSpec := operationSpec this;
             abortSignal := Options.abortSignal options;
             onUploadProgress := Options.onUploadProgress options;
             onDownloadProgress := Options.onDownloadProgress options |}, st4)
  end.

End Prepare.

(** ** The constructor, validateRequestProperties and clone *)

(** The headers argument of the constructor: a raw dictionary, possibly
    left out, or a header container. *)
Inductive HeadersArg : Type :=
| RawHeaders (rawHeaders : option (list (string * string)))
| HeadersObject (l : loc).

(** new WebResource(url, method, body, query, headers, rawResponse,
    abortSignal, onUploadProgress, onDownloadProgress) *)
Definition newWebResource (url : option string) (method : option string)
    (body : JsValue) (query : option loc) (headers : HeadersArg)
    (rawResponse : option bool)
    (abortSignal onUploadProgress onDownloadProgress : option Ref)
    (st : Store) : WebResource * Store :=
  let '(l, st') :=
    match headers with
    | HeadersObject l => (l, st)
    | RawHeaders raw => allocHeaders st (HttpHeaders.ofRaw (default [] raw))
    end in
  ({| url := match url with Some u => u | None => "" end;
      method := match method with
                | Some m => if String.eqb m "" then "GET" else m
                | None => "GET"
                end;
      body := body;
      headers := l;
      rawResponse := default false rawResponse;
      formData := None;
      query := query;
      operationSpec := None;
      abortSignal := abortSignal;
      onUploadProgress := onUploadProgress;
      onDownloadProgress := onDownloadProgress |}, st').

Definition validateRequestProperties (this : WebResource) : Result unit :=
  if String.eqb (method this) "" then Throw MethodRequired
  else if String.eqb (url this) "" then Throw UrlRequired
  else Ok ().

(** clone(): a new descriptor over a clone of the header container. *)
Definition clone (this : WebResource) (st : Store) : WebResource * Store :=
  let '(l, st1) := HttpHeaders_clone st (headers this) in
  let '(result, st2) :=
    newWebResource (Some (url this)) (Some (method this)) (body this) (query this)
      (HeadersObject l) (Some (rawResponse this))
      (abortSignal this) (onUploadProgress this) (onDownloadProgress this) st1 in
  ({| url := url result;
      method := method result;
      body := body result;
      headers := headers result;
      rawResponse := rawResponse result;
      formData := formData this;
      query := query result;
      operationSpec := operationSpec this;
      abortSignal := abortSignal result;
      onUploadProgress := onUploadProgress result;
      onDownloadProgress := onDownloadProgress result |}, st2).

(** ** Sample collaborators and descriptor *)

Module Sample.

(** A serializer for composite mappers: every model property of the mapper
    that the object defines goes out under the serialized name of the
    property.  This is the renaming of the real serializer, used to run
    [prepare] on concrete inputs. *)
Fixpoint renameProps (modelProperties props : list (string * JsValue))
    : list (string * JsValue) :=
  match modelProperties with
  | [] => []
  | (k, propertyMapper) :: rest =>
      match JsV.lookupProp props k with
      | JsUndefined => renameProps rest props
      | v => (JsV.toString (JsV.getProp propertyMapper "serializedName"), v)
               :: renameProps rest props
      end
  end.

Definition serialize (mappers mapper object : JsValue) (objectName : string)
    : Result JsValue :=
  match JsV.getProp (JsV.getProp mapper "type") "modelProperties", object with
  | JsObject modelProperties, JsObject props =>
      Ok (JsObject (renameProps modelProperties props))
  | _, _ => Ok object
  end.

Definition generateUuid (n : nat) : string :=
  "6f9619ff-8b86-4d11-b42d-00c04fc964" +:+
  String (Js.lowerChar (Js.hexDigit (n / 16 mod 16)))
    (String (Js.lowerChar (Js.hexDigit (n mod 16))) "").

Definition emptyStore : Store :=
  {| headerObjs := ∅; queryObjs := ∅; uuidCount := 0 |}.

(** new WebResource() *)
Definition descriptor : WebResource * Store :=
  newWebResource None None JsUndefined None (RawHeaders None) None None None None
    emptyStore.

(** The options object with the fields given and every other field left
    out. *)
Definition options (method url pathTemplate : JsValue)
    (pathParameters : option (list (string * JsValue))) (queryParameters : JsValue)
    (headers : option (list (string * string)))
    (body serializationMapper : JsValue) (bodyIsStream : bool)
    : RequestPrepareOptions :=
  {| Options.method := method;
     Options.url := url;
     Options.queryParameters := queryParameters;
     Options.pathTemplate := pathTemplate;
     Options.baseUrl := None;
     Options.pathParameters := pathParameters;
     Options.formData := None;
     Options.headers := headers;
     Options.disableClientRequestId := false;
     Options.body := body;
     Options.serializationMapper := serializationMapper;
     Options.mappers := JsUndefined;
     Options.deserializationMapper := JsUndefined;
     Options.disableJsonStringifyOnBody := false;
     Options.bodyIsStream := bodyIsStream;
     Options.abortSignal := None;
     Options.onUploadProgress := None;
     Options.onDownloadProgress := None |}.

(** { method, url } and { method, pathTemplate, pathParameters } *)
Definition withUrl (method url : string) : RequestPrepareOptions :=
  options (JsString method) (JsString url) JsUndefined None JsUndefined None
    JsUndefined JsUndefined false.

Definition withTemplate (method pathTemplate : string)
    (pathParameters : list (string * JsValue)) : RequestPrepareOptions :=
  options (JsString method) JsUndefined (JsString pathTemplate) (Some pathParameters)
    JsUndefined None JsUndefined JsUndefined false.

Definition prepare (o : RequestPrepareOptions) : Result (WebResource * Store) :=
  prepare serialize generateUuid (Some o) descriptor.1 descriptor.2.

(** The header of the descriptor a call of [prepare] returned. *)
Definition headerOf (res : Result (WebResource * Store)) (headerName : string)
    : option string :=
  match res with
  | Ok (r, st) => HttpHeaders.get (headersAt st (headers r)) headerName
  | Throw _ => None
  end.

End Sample.

(** ** Sample requests *)

(** The composite mapper that sends the property id out as ID. *)
Definition idMapper : JsValue :=
  JsObject [("type", JsObject [("name", JsString "Composite");
     ("modelProperties", JsObject [("id", JsObject [("serializedName", JsString "ID")])])])].

(** A stream upload whose caller set Transfer-Encoding and Content-Type. *)
Definition gzipUpload : RequestPrepareOptions :=
  Sample.options (JsString "PUT") (JsString "http://h/upload") JsUndefined None
    JsUndefined (Some [("Transfer-Encoding", "gzip"); ("content-type", "text/plain")])
    (JsString "payload") idMapper true.

(** { method: "GET", url: "http://h/p?a=1", queryParameters: { b: "2" } } *)
Definition appendToQuery : RequestPrepareOptions :=
  Sample.options (JsString "GET") (JsString "http://h/p?a=1") JsUndefined None
    (JsObject [("b", JsString "2")]) None JsUndefined JsUndefined false.

(** { method: "GET", url: "http://h/p",
      queryParameters: { q: "a&b", skipped: "" } } *)
Definition ampersandQuery : RequestPrepareOptions :=
  Sample.options (JsString "GET") (JsString "http://h/p") JsUndefined None
    (JsObject [("q", JsString "a&b"); ("skipped", JsString "")]) None
    JsUndefined JsUndefined false.

(** { method: "GET", url: "http://h/p", queryParameters: q } where q is
    JSON.parse of the text {"q":"a&b","__proto__":"a&b"}: an object with the
    two own properties q and __proto__. *)
Definition protoQuery : RequestPrepareOptions :=
  Sample.options (JsString "GET") (JsString "http://h/p") JsUndefined None
    (JsObject [("q", JsString "a&b"); ("__proto__", JsString "a&b")]) None
    JsUndefined JsUndefined false.

(** The wrapper { value: "$$", skipUrlEncoding: true }. *)
Definition dollarWrapper : JsValue :=
  JsObject [("value", JsString "$$"); ("skipUrlEncoding", JsBool true)].

(** { method: "GET", url: "http://h", headers: { "Accept-Language": "fr" } } *)
Definition frenchRequest : RequestPrepareOptions :=
  Sample.options (JsString "GET") (JsString "http://h") JsUndefined None JsUndefined
    (Some [("Accept-Language", "fr")]) JsUndefined JsUndefined false.

(** { method: "GET", url: "http://h", headers: { "accept-language": "" } } *)
Definition emptyLanguage : RequestPrepareOptions :=
  Sample.options (JsString "GET") (JsString "http://h") JsUndefined None JsUndefined
    (Some [("accept-language", "")]) JsUndefined JsUndefined false.

(** { method: "GET", pathTemplate: "/a/{x}" }, without pathParameters *)
Definition templateOnly : RequestPrepareOptions :=
  Sample.options (JsString "GET") JsUndefined (JsString "/a/{x}") None
    JsUndefined None JsUndefined JsUndefined false.

(** The parameters { x: { value: "a b", skipUrlEncoding: true },
    y: { value: "a b" } } *)
Definition wrappedParameters : list (string * JsValue) :=
  [("x", JsObject [("value", JsString "a b"); ("skipUrlEncoding", JsBool true)]);
   ("y", JsObject [("value", JsString "a b")])].

(** { method: "GET", baseUrl: "http://h/", pathTemplate: "/a/{x}/{y}",
      pathParameters: wrappedParameters } *)
Definition wrappedTemplate : RequestPrepareOptions :=
  {| Options.method := JsString "GET";
     Options.url := JsUndefined;
     Options.queryParameters := JsUndefined;
     Options.pathTemplate := JsString "/a/{x}/{y}";
     Options.baseUrl := Some "http://h/";
     Options.pathParameters := Some wrappedParameters;
     Options.formData := None;
     Options.headers := None;
     Options.disableClientRequestId := false;
     Options.body := JsUndefined;
     Options.serializationMapper := JsUndefined;
     Options.mappers := JsUndefined;
     Options.deserializationMapper := JsUndefined;
     Options.disableJsonStringifyOnBody := false;
     Options.bodyIsStream := false;
     Options.abortSignal := None;
     Options.onUploadProgress := None;
     Options.onDownloadProgress := None |}.

(** { method: "GET", url: "http://h/p",
      queryParameters: { a: { value: "x y", skipUrlEncoding: true },
                         b: { value: "x y" } } } *)
Definition wrappedQuery : RequestPrepareOptions :=
  Sample.options (JsString "GET") (JsString "http://h/p") JsUndefined None
    (JsObject [("a", JsObject [("value", JsString "x y"); ("skipUrlEncoding", JsBool true)]);
               ("b", JsObject [("value", JsString "x y")])])
    None JsUndefined JsUndefined false.


(** { method: "GET", url: "http://h/p", queryParameters: { a: "", b: true } } *)
Definition idleQuery : RequestPrepareOptions :=
  Sample.options (JsString "GET") (JsString "http://h/p") JsUndefined None
    (JsObject [("a", JsString ""); ("b", JsBool true)])
    None JsUndefined JsUndefined false.

(** { method: "POST", url: "http://h", body: { id: "7" },
      serializationMapper: idMapper, disableJsonStringifyOnBody: true,
      headers: { "content-type": "text/plain" } } *)
Definition serializedOnly : RequestPrepareOptions :=
  {| Options.method := JsString "POST";
     Options.url := JsString "http://h";
     Options.queryParameters := JsUndefined;
     Options.pathTemplate := JsUndefined;
     Options.baseUrl := None;
     Options.pathParameters := None;
     Options.formData := None;
     Options.headers := Some [("content-type", "text/plain")];
     Options.disableClientRequestId := false;
     Options.body := JsObject [("id", JsString "7")];
     Options.serializationMapper := idMapper;
     Options.mappers := JsUndefined;
     Options.deserializationMapper := JsUndefined;
     Options.disableJsonStringifyOnBody := true;
     Options.bodyIsStream := false;
     Options.abortSignal := Some 5;
     Options.onUploadProgress := None;
     Options.onDownloadProgress := None |}.

(** { method: "POST", url: "http://h", body: null, bodyIsStream: true } *)
Definition nullBody : RequestPrepareOptions :=
  Sample.options (JsString "POST") (JsString "http://h") JsUndefined None
    JsUndefined None JsNull JsUndefined true.

(** A serializer that rejects every body. *)
Definition rejectingSerializer (mappers mapper object : JsValue) (objectName : string)
    : Result JsValue :=
  Throw (SerializationError objectName).

(** ** Notions used to state the properties *)

(** Equality of two strings up to the case of their ASCII letters: the
    reading of "in any letter case". *)
Fixpoint sameIgnoringCase (s v : string) : bool :=
  match s, v with
  | EmptyString, EmptyString => true
  | String c s', String d v' =>
      Ascii.eqb (Js.lowerChar c) (Js.lowerChar d) && sameIgnoringCase s' v'
  | _, _ => false
  end.

(** The container this.headers after the headers of the options are set on
    it, and after the defaults of lines 224-236. *)
Definition mergedHeaders (o : RequestPrepareOptions) (this : WebResource) (st : Store)
    : HttpHeaders :=
  mergeHeaders o (headersAt st (headers this)).

Definition defaultedHeaders (generateUuid : nat -> string) (o : RequestPrepareOptions)
    (this : WebResource) (st : Store) : HttpHeaders :=
  (defaultHeaders generateUuid o (uuidCount st) (mergedHeaders o this st)).1.

(** The URL in progress when the query parameters are appended: the
    literal URL or the resolved template. *)
Definition resolvedUrl (o : RequestPrepareOptions) (this : WebResource) : Result string :=
  setUrl o (url this) ≫= constructUrl o.

(** The text a recorded query parameter has in the URL. *)
Definition renderPair (kv : string * JsValue) : string :=
  kv.1 +:+ "=" +:+ JsV.toString kv.2.

Definition record (q : gmap string JsValue) (kv : string * JsValue) : gmap string JsValue :=
  JsV.assign q kv.1 kv.2.

(** The name of a placeholder, in the words of the specification: word
    characters, then white space, then word characters, each run possibly
    empty. *)
Definition isPlaceholderName (n : string) : Prop :=
  ∃ w1 sp w2, n = w1 +:+ sp +:+ w2 ∧
    Js.allChars Js.isWordChar w1 = true ∧
    Js.allChars Js.isSpaceChar sp = true ∧
    Js.allChars Js.isWordChar w2 = true.

(** [Filled pp template url]: [url] is [template] with each placeholder
    {name} replaced by the percent-encoded string that [pp] holds under
    name, every other character kept; every opening brace of the template
    opens a placeholder. *)
Inductive Filled (pp : list (string * JsValue)) : string -> string -> Prop :=
| Filled_end : Filled pp "" ""
| Filled_char c template url :
    Ascii.eqb "{" c = false ->
    Filled pp template url ->
    Filled pp (String c template) (String c url)
| Filled_placeholder n v template url :
    isPlaceholderName n ->
    JsV.lookupProp pp n = JsString v ->
    Filled pp template url ->
    Filled pp ("{" +:+ n +:+ "}" +:+ template) (Js.encodeURIComponent v +:+ url).

(** The template after one leading slash is taken off. *)
Definition relativeTemplate (pathTemplate : string) : string :=
  match pathTemplate with
  | String "/" rest => rest
  | _ => pathTemplate
  end.

(** ** Notions used to state the further properties *)

(** What the loop of lines 192-212 records for a wrapper with a truthy
    value: the value as it is with skipUrlEncoding, its percent-encoded text
    otherwise. *)
Definition wrapperRecord (props : list (string * JsValue)) : JsValue :=
  if JsV.truthy (JsV.lookupProp props "skipUrlEncoding")
  then JsV.lookupProp props "value"
  else JsString (Js.encodeURIComponent (JsV.toString (JsV.lookupProp props "value"))).

(** A query parameter for which the loop appends nothing: a falsy value, or
    one that is neither a string nor an object. *)
Definition isIgnoredParam (v : JsValue) : bool :=
  negb (JsV.truthy v)
  || negb (String.eqb (JsV.typeof v) "string" || String.eqb (JsV.typeof v) "object").



(** The base URL of lines 137-140: options.baseUrl, or the default when it
    is falsy. *)
Definition effectiveBaseUrl (o : RequestPrepareOptions) : string :=
  match Options.baseUrl o with
  | Some b => if String.eqb b "" then defaultBaseUrl else b
  | None => defaultBaseUrl
  end.

(** The URL of line 141, before the placeholders are replaced. *)
Definition joinUrl (baseUrl pathTemplate : string) : string :=
  baseUrl +:+ (if Js.endsWith "/" baseUrl then "" else "/")
          +:+ (if Js.startsWith "/" pathTemplate
               then Js.slice1 pathTemplate else pathTemplate).

(** The number of occurrences of a character. *)
Fixpoint countChar (c : ascii) (s : string) : nat :=
  match s with
  | EmptyString => 0
  | String d s' => (if Ascii.eqb c d then 1 else 0) + countChar c s'
  end.

(** The characters that delimit the parts of a URL. *)
Definition isDelimiter (c : ascii) : bool := Js.hasChar c "/?#&=".



(** ** Inversion of the stages *)

Lemma bind_Ok {A B} (m : Result A) (f : A -> Result B) (b : B) :
  m ≫= f = Ok b -> ∃ a, m = Ok a ∧ f a = Ok b.
Proof. destruct m as [a|e]; simpl; [eauto | discriminate]. Qed.

Lemma bind_Throw {A B} (e : PrepareError) (f : A -> Result B) :
  Throw e ≫= f = Throw e.
Proof. reflexivity. Qed.

Section Inversion.

Variable serialize : JsValue -> JsValue -> JsValue -> string -> Result JsValue.
Variable generateUuid : nat -> string.

Lemma prepare_inv o this st r st' :
  prepare serialize generateUuid (Some o) this st = Ok (r, st') ->
  ∃ url1 method1 url2 url3 query3 st3 body4,
    checkOptions o = Ok () ∧
    setUrl o (url this) = Ok url1 ∧
    setMethod o = Ok method1 ∧
    constructUrl o url1 = Ok url2 ∧
    appendQueryParameters o url2 (query this) st = Ok (url3, query3, st3) ∧
    setHeadersAndBody serialize generateUuid o (headers this) st3 = Ok (body4, st') ∧
    r = {| url := url3; method := method1; body := body4;
           headers := headers this; rawResponse := rawResponse this;
           formData := formData this; query := query3;
           operationSpec := operationSpec this;
           abortSignal := Options.abortSignal o;
           onUploadProgress := Options.onUploadProgress o;
           onDownloadProgress := Options.onDownloadProgress o |}.
Proof.
  unfold prepare. intros H.
  apply bind_Ok in H as ([] & Hc & H).
  apply bind_Ok in H as (url1 & Hu & H).
  apply bind_Ok in H as (method1 & Hm & H).
  apply bind_Ok in H as (url2 & Hk & H).
  apply bind_Ok in H as ([[url3 query3] st3] & Hq & H).
  apply bind_Ok in H as ([body4 st4] & Hb & H).
  injection H as <- <-.
  exists url1, method1, url2, url3, query3, st3, body4. auto 10.
Qed.

End Inversion.

(** ** Facts about characters and strings *)

#[local] Arguments String.append !_ _ / : simpl nomatch.

Ltac all_chars :=
  let c := fresh "c" in
  intros c; destruct c as [[] [] [] [] [] [] [] []]; vm_compute; try reflexivity;
  try discriminate; auto.

Lemma append_assoc (a b c : string) : (a +:+ b) +:+ c = a +:+ b +:+ c.
Proof. induction a as [|x a IH]; simpl; [reflexivity | f_equal; exact IH]. Qed.

Lemma append_empty_r (a : string) : a +:+ "" = a.
Proof. induction a as [|x a IH]; simpl; [reflexivity | f_equal; exact IH]. Qed.

Lemma upper_of_lower : ∀ c, Js.upperChar (Js.lowerChar c) = Js.upperChar c.
Proof. all_chars. Qed.

Lemma lower_of_upper : ∀ c, Js.lowerChar (Js.upperChar c) = Js.lowerChar c.
Proof. all_chars. Qed.

Lemma sameIgnoringCase_upper s v :
  sameIgnoringCase s v = true -> Js.toUpperCase s = Js.toUpperCase v.
Proof.
  unfold Js.toUpperCase.
  revert v. induction s as [|c s IH]; intros [|d v]; simpl; try discriminate; auto.
  intros [Hc Hs]%andb_prop. apply Ascii.eqb_eq in Hc.
  rewrite <- (upper_of_lower c), Hc, upper_of_lower. f_equal. now apply IH.
Qed.

Lemma sameIgnoringCase_toUpperCase s : sameIgnoringCase s (Js.toUpperCase s) = true.
Proof.
  unfold Js.toUpperCase.
  induction s as [|c s IH]; simpl; [reflexivity|].
  rewrite lower_of_upper, Ascii.eqb_refl. exact IH.
Qed.

Lemma validMethods_upper v : In v validMethods -> Js.toUpperCase v = v.
Proof.
  unfold validMethods. simpl.
  intros H. repeat (destruct H as [<- | H]; [reflexivity|]). destruct H.
Qed.

Lemma isValidMethod_In m : isValidMethod m = true <-> In m validMethods.
Proof.
  unfold isValidMethod. rewrite existsb_exists. split.
  - intros (v & Hv & He). apply String.eqb_eq in He. now subst.
  - intros H. exists m. split; [exact H | apply String.eqb_refl].
Qed.

Lemma truthy_JsString s : JsV.truthy (JsString s) = true <-> s ≠ "".
Proof.
  simpl. destruct (String.eqb_spec s ""); simpl; split; intros; congruence.
Qed.

Lemma typeof_string v :
  String.eqb (JsV.typeof v) "string" = true <-> ∃ s, v = JsString s.
Proof.
  destruct v; simpl; split; try discriminate; eauto;
    intros [s' H]; discriminate.
Qed.

(** ** The headers and the body after prepare *)

Lemma appendQueryParameters_store o u q st u' q' st' :
  appendQueryParameters o u q st = Ok (u', q', st') ->
  headerObjs st' = headerObjs st ∧ uuidCount st' = uuidCount st.
Proof.
  unfold appendQueryParameters.
  destruct (JsV.truthy _); [|intros [= <- <- <-]; auto].
  destruct (Options.queryParameters o); try discriminate.
  intros ([qs m] & _ & H)%bind_Ok. simpl in H. injection H as <- <- <-. auto.
Qed.

Section Stages.

Variable serialize : JsValue -> JsValue -> JsValue -> string -> Result JsValue.
Variable generateUuid : nat -> string.

Lemma prepare_headers_body o this st r st' :
  prepare serialize generateUuid (Some o) this st = Ok (r, st') ->
  headers r = headers this ∧
  setBody serialize o (defaultedHeaders generateUuid o this st)
    = Ok (body r, headersAt st' (headers r)) ∧
  uuidCount st'
    = (defaultHeaders generateUuid o (uuidCount st) (mergedHeaders o this st)).2.
Proof.
  intros (u1 & m & u2 & u3 & q3 & st3 & b & _ & _ & _ & _ & Hq & Hb & ->)%prepare_inv.
  apply appendQueryParameters_store in Hq as [Hh Hu]. simpl.
  unfold setHeadersAndBody in Hb.
  unfold defaultedHeaders, mergedHeaders, headersAt in *. rewrite <- Hh, <- Hu.
  destruct (defaultHeaders _ _ _ _) as [h uuids]. simpl.
  apply bind_Ok in Hb as ([b' h'] & Hs & Hb). injection Hb as <- <-. simpl.
  rewrite lookup_total_insert_eq. auto.
Qed.

(** C1, on the body stage: when the body is defined, is no stream and JSON
    text is not disabled, a successful prepare stores the JSON text of the
    raw options.body, whatever the serializer returned for it. *)
Theorem prepare_body_is_json_of_raw_body o this st r st' :
  JsV.isNullish (Options.body o) = false ->
  Options.bodyIsStream o = false ->
  JsV.truthy (Options.serializationMapper o) = true ->
  Options.disableJsonStringifyOnBody o = false ->
  prepare serialize generateUuid (Some o) this st = Ok (r, st') ->
  body r = JsV.JSON_stringify (Options.body o).
Proof.
  intros Hn Hs Hm Hj (_ & Hb & _)%prepare_headers_body.
  unfold setBody in Hb. rewrite Hn, Hs, Hm, Hj in Hb. simpl in Hb.
  apply bind_Ok in Hb as (b1 & _ & Hb). now injection Hb as <- _.
Qed.

End Stages.

(** prepare({ method: "POST", url: "http://h", body: { id: "7" },
    serializationMapper: idMapper }): the body is the JSON text of
    { id: "7" }, not that of the serialized { ID: "7" }. *)
Lemma prepare_body_is_json_of_raw_body_witness :
  let o := Sample.options (JsString "POST") (JsString "http://h") JsUndefined None
             JsUndefined None (JsObject [("id", JsString "7")]) idMapper false in
  ∃ r st',
    Sample.prepare o = Ok (r, st') ∧
    body r = JsV.JSON_stringify (JsObject [("id", JsString "7")]) ∧
    Sample.serialize JsUndefined idMapper (JsObject [("id", JsString "7")]) "requestBody"
      = Ok (JsObject [("ID", JsString "7")]) ∧
    body r ≠ JsV.JSON_stringify (JsObject [("ID", JsString "7")]).
Proof.
  intros o.
  destruct (Sample.prepare o) as [[r st']|e] eqn:E; [|vm_compute in E; discriminate].
  exists r, st'. split; [reflexivity|].
  assert (Hb : body r = JsV.JSON_stringify (Options.body o)).
  { apply (prepare_body_is_json_of_raw_body Sample.serialize Sample.generateUuid
             o Sample.descriptor.1 Sample.descriptor.2 r st');
      [reflexivity | reflexivity | reflexivity | reflexivity | exact E]. }
  split; [exact Hb|]. split; [reflexivity|].
  rewrite Hb. vm_compute. discriminate.
Defined.

(** ** The header container *)

Lemma get_set_eq (h : HttpHeaders) n n' v :
  HttpHeaders.getHeaderKey n = HttpHeaders.getHeaderKey n' ->
  HttpHeaders.get (HttpHeaders.set h n v) n' = Some v.
Proof.
  intros E. unfold HttpHeaders.get, HttpHeaders.set.
  now rewrite E, lookup_insert_eq.
Qed.

Lemma get_set_ne (h : HttpHeaders) n n' v :
  HttpHeaders.getHeaderKey n ≠ HttpHeaders.getHeaderKey n' ->
  HttpHeaders.get (HttpHeaders.set h n v) n' = HttpHeaders.get h n'.
Proof.
  intros E. unfold HttpHeaders.get, HttpHeaders.set.
  now rewrite lookup_insert_ne.
Qed.

Lemma streamHeaders_content_type (h : HttpHeaders) :
  HttpHeaders.get (streamHeaders h) "Content-Type" = Some "application/octet-stream".
Proof.
  unfold streamHeaders. case_bool_decide as E; simpl; [exact E|].
  now apply get_set_eq.
Qed.

Lemma streamHeaders_transfer_encoding (h : HttpHeaders) :
  HttpHeaders.get (streamHeaders h) "Transfer-Encoding"
  = if isSet (HttpHeaders.get h "Transfer-Encoding")
    then HttpHeaders.get h "Transfer-Encoding" else Some "chunked".
Proof.
  unfold streamHeaders.
  assert (Hte : ∀ h' : HttpHeaders,
    HttpHeaders.get
      (if negb (bool_decide (HttpHeaders.get h' "Content-Type"
                             = Some "application/octet-stream"))
       then HttpHeaders.set h' "Content-Type" "application/octet-stream" else h')
      "Transfer-Encoding" = HttpHeaders.get h' "Transfer-Encoding").
  { intros h'. destruct (negb _); [|reflexivity].
    apply get_set_ne. vm_compute. discriminate. }
  rewrite Hte. destruct (isSet _); simpl; [reflexivity|].
  now apply get_set_eq.
Qed.

Lemma defaultHeaders_other generateUuid o uuids (h : HttpHeaders) n :
  HttpHeaders.getHeaderKey n ≠ "accept-language" ->
  HttpHeaders.getHeaderKey n ≠ "x-ms-client-request-id" ->
  HttpHeaders.getHeaderKey n ≠ "content-type" ->
  HttpHeaders.get (defaultHeaders generateUuid o uuids h).1 n = HttpHeaders.get h n.
Proof.
  intros H1 H2 H3. unfold defaultHeaders.
  assert (K : ∀ (h' : HttpHeaders) k v,
             (k = "accept-language" ∨ k = "x-ms-client-request-id" ∨ k = "Content-Type") ->
             HttpHeaders.get (HttpHeaders.set h' k v) n = HttpHeaders.get h' n).
  { intros h' k v Hk. apply get_set_ne. intros E.
    destruct Hk as [-> | [-> | ->]]; [apply H1 | apply H2 | apply H3];
      rewrite <- E; reflexivity. }
  destruct (negb (isSet (HttpHeaders.get h "accept-language")));
    destruct (negb (isSet (HttpHeaders.get _ "x-ms-client-request-id")) && _); simpl;
    destruct (negb (isSet (HttpHeaders.get _ "Content-Type"))); simpl;
    rewrite ?K; auto.
Qed.

Section StreamMode.

Variable serialize : JsValue -> JsValue -> JsValue -> string -> Result JsValue.
Variable generateUuid : nat -> string.

Lemma setBody_stream serialize' o h :
  JsV.isNullish (Options.body o) = false ->
  Options.bodyIsStream o = true ->
  setBody serialize' o h = Ok (Options.body o, streamHeaders h).
Proof. intros Hn Hs. unfold setBody. now rewrite Hn, Hs. Qed.

Lemma prepare_stream_any_serializer serialize' o this st :
  JsV.isNullish (Options.body o) = false ->
  Options.bodyIsStream o = true ->
  prepare serialize' generateUuid (Some o) this st
  = prepare serialize generateUuid (Some o) this st.
Proof.
  intros Hn Hs. unfold prepare.
  destruct (checkOptions o); [|reflexivity]. simpl.
  destruct (setUrl o (url this)); [|reflexivity]. simpl.
  destruct (setMethod o); [|reflexivity]. simpl.
  destruct (constructUrl o _); [|reflexivity]. simpl.
  destruct (appendQueryParameters o _ _ _) as [[[u q] st3]|]; [|reflexivity]. simpl.
  unfold setHeadersAndBody. destruct (defaultHeaders _ _ _ _) as [h n].
  now rewrite !setBody_stream.
Qed.

(** C2, amended: with a defined body and bodyIsStream set, also when a
    serialization mapper is given, a successful prepare stores the body as
    it is, with any serializer in place of the given one the call has the
    same outcome (none is invoked), Content-Type ends as
    application/octet-stream, and Transfer-Encoding ends as chunked only
    when the merged headers hold no non-empty Transfer-Encoding: a value the
    caller set is kept. *)
Theorem prepare_stream_body o this st r st' :
  JsV.isNullish (Options.body o) = false ->
  Options.bodyIsStream o = true ->
  prepare serialize generateUuid (Some o) this st = Ok (r, st') ->
  body r = Options.body o ∧
  (∀ serialize', prepare serialize' generateUuid (Some o) this st = Ok (r, st')) ∧
  HttpHeaders.get (headersAt st' (headers r)) "Content-Type"
    = Some "application/octet-stream" ∧
  HttpHeaders.get (headersAt st' (headers r)) "Transfer-Encoding"
    = if isSet (HttpHeaders.get (mergedHeaders o this st) "Transfer-Encoding")
      then HttpHeaders.get (mergedHeaders o this st) "Transfer-Encoding"
      else Some "chunked".
Proof.
  intros Hn Hs H.
  pose proof (prepare_headers_body _ _ _ _ _ _ _ H) as (_ & Hb & _).
  rewrite setBody_stream in Hb by assumption. injection Hb as Hb1 Hb2.
  split; [now rewrite <- Hb1|].
  split; [intros serialize'; now rewrite prepare_stream_any_serializer|].
  rewrite <- Hb2. split; [apply streamHeaders_content_type|].
  rewrite streamHeaders_transfer_encoding. unfold defaultedHeaders.
  rewrite defaultHeaders_other; [reflexivity | | |]; vm_compute; discriminate.
Qed.

End StreamMode.

Lemma prepare_stream_body_witness :
  ∃ r st',
    Sample.prepare gzipUpload = Ok (r, st') ∧
    body r = JsString "payload" ∧
    HttpHeaders.get (headersAt st' (headers r)) "Content-Type"
      = Some "application/octet-stream" ∧
    HttpHeaders.get (headersAt st' (headers r)) "Transfer-Encoding" = Some "gzip".
Proof.
  destruct (Sample.prepare gzipUpload) as [[r st']|e] eqn:E;
    [|vm_compute in E; discriminate].
  exists r, st'. split; [reflexivity|].
  destruct (prepare_stream_body Sample.serialize Sample.generateUuid gzipUpload
              Sample.descriptor.1 Sample.descriptor.2 r st')
    as (Hb & _ & Hc & Ht); [reflexivity | reflexivity | exact E |].
  split; [exact Hb|]. split; [exact Hc|]. rewrite Ht. reflexivity.
Defined.

(** C2 as stated fails: the caller's Transfer-Encoding gzip is not
    overwritten by chunked. *)
Lemma stream_keeps_caller_transfer_encoding :
  Options.bodyIsStream gzipUpload = true ∧
  JsV.isNullish (Options.body gzipUpload) = false ∧
  Sample.headerOf (Sample.prepare gzipUpload) "Transfer-Encoding" = Some "gzip" ∧
  Sample.headerOf (Sample.prepare gzipUpload) "Transfer-Encoding" ≠ Some "chunked".
Proof. vm_compute. repeat split; discriminate. Qed.

(** ** The method and the URL checks *)

Lemma checkOptions_method_string o :
  String.eqb (JsV.typeof (Options.method o)) "string" = true ->
  checkOptions o
  = if JsV.truthy (Options.url o) && JsV.truthy (Options.pathTemplate o)
    then Throw ConflictingUrlSpec
    else if negb (String.eqb (JsV.typeof (Options.pathTemplate o)) "string")
            && negb (String.eqb (JsV.typeof (Options.url o)) "string")
    then Throw MissingUrlSpec
    else Ok ().
Proof.
  intros Hm. unfold checkOptions.
  apply typeof_string in Hm as [m Hm]. rewrite Hm. simpl.
  destruct (JsV.truthy (Options.url o) && JsV.truthy (Options.pathTemplate o));
    [reflexivity|].
  destruct (Options.pathTemplate o), (Options.url o); reflexivity.
Qed.

Lemma setMethod_string o s :
  Options.method o = JsString s ->
  setMethod o
  = if negb (String.eqb s "") && negb (isValidMethod (Js.toUpperCase s))
    then Throw (InvalidMethod s) else Ok (Js.toUpperCase s).
Proof. intros H. unfold setMethod. now rewrite H. Qed.

Section MethodAndUrl.

Variable serialize : JsValue -> JsValue -> JsValue -> string -> Result JsValue.
Variable generateUuid : nat -> string.

(** The stages up to the query parameters, for a valid method and a
    literal url. *)
Lemma prepare_literal_url o this st m u :
  Options.method o = JsString m ->
  isValidMethod (Js.toUpperCase m) = true ->
  Options.url o = JsString u -> u ≠ "" ->
  JsV.truthy (Options.pathTemplate o) = false ->
  prepare serialize generateUuid (Some o) this st
  = '(url3, query3, st3) ← appendQueryParameters o u (query this) st;
    '(body4, st4) ← setHeadersAndBody serialize generateUuid o (headers this) st3;
    Ok ({| url := url3; method := Js.toUpperCase m; body := body4;
           headers := headers this; rawResponse := rawResponse this;
           formData := formData this; query := query3;
           operationSpec := operationSpec this;
           abortSignal := Options.abortSignal o;
           onUploadProgress := Options.onUploadProgress o;
           onDownloadProgress := Options.onDownloadProgress o |}, st4).
Proof.
  intros Hm Hv Hu Hne Hpt. unfold prepare.
  rewrite checkOptions_method_string by (now rewrite Hm).
  rewrite Hpt, andb_false_r, Hu. simpl. rewrite andb_false_r. simpl.
  unfold setUrl. rewrite Hu, (proj2 (truthy_JsString _) Hne). simpl.
  rewrite (setMethod_string _ _ Hm), Hv, andb_false_r. simpl.
  unfold constructUrl. rewrite Hpt. reflexivity.
Qed.

(** C3, amended: for a string s given as options.method, (1) if s is one of
    the eight verbs in some letter case (the letters a-z standing for A-Z),
    the verb check of lines 123-129 passes with that verb, the method of the
    descriptor after a successful prepare is that verb, and prepare does
    succeed when it is given a non-empty url and no path template, query
    parameters or body; (2) if s is not empty, is made of ASCII characters
    and is none of the verbs in any letter case, prepare fails: with the
    error of the checks on url and pathTemplate when one of them fails, with
    InvalidMethod otherwise; (3) after every successful prepare the method
    is one of the verbs, or it is the empty string and s is empty: for the
    empty string the verb check is skipped; for s of ASCII characters the
    method is the upper-case s. *)
Theorem prepare_method o this st s :
  Options.method o = JsString s ->
  (∀ v, In v validMethods -> sameIgnoringCase s v = true ->
     setMethod o = Ok v ∧
     (∀ r st', prepare serialize generateUuid (Some o) this st = Ok (r, st') ->
        method r = v) ∧
     (∀ u, Options.url o = JsString u -> u ≠ "" ->
        JsV.truthy (Options.pathTemplate o) = false ->
        JsV.truthy (Options.queryParameters o) = false ->
        JsV.isNullish (Options.body o) = true ->
        ∃ r st', prepare serialize generateUuid (Some o) this st = Ok (r, st') ∧
                 method r = v)) ∧
  (s ≠ "" -> Js.isAscii s = true ->
   (∀ v, In v validMethods -> sameIgnoringCase s v = false) ->
     prepare serialize generateUuid (Some o) this st
     = Throw match checkOptions o, setUrl o (url this) with
             | Throw e, _ => e
             | Ok _, Throw e => e
             | Ok _, Ok _ => InvalidMethod s
             end) ∧
  (∀ r st', prepare serialize generateUuid (Some o) this st = Ok (r, st') ->
     (In (method r) validMethods ∨ (s = "" ∧ method r = "")) ∧
     (Js.isAscii s = true -> method r = Js.toUpperCase s)).
Proof.
  intros Hm.
  assert (Hok : ∀ r st', prepare serialize generateUuid (Some o) this st = Ok (r, st') ->
     method r = Js.toUpperCase s ∧ (In (method r) validMethods ∨ s = "")).
  { intros r st' (u1 & m & u2 & u3 & q3 & st3 & b & _ & _ & Hs & _ & _ & _ & ->)%prepare_inv.
    simpl. rewrite (setMethod_string _ _ Hm) in Hs.
    destruct (String.eqb_spec s ""); simpl in Hs.
    - injection Hs as <-. auto.
    - destruct (isValidMethod (Js.toUpperCase s)) eqn:Ev; simpl in Hs; [|discriminate].
      injection Hs as <-. apply isValidMethod_In in Ev. auto. }
  split; [|split].
  - intros v Hv Hsame.
    assert (Hup : Js.toUpperCase s = v).
    { rewrite (sameIgnoringCase_upper _ _ Hsame). now apply validMethods_upper. }
    assert (Hvalid : isValidMethod (Js.toUpperCase s) = true).
    { rewrite Hup. now apply isValidMethod_In. }
    split; [|split].
    + rewrite (setMethod_string _ _ Hm), Hvalid, andb_false_r. now rewrite Hup.
    + intros r st' H. apply Hok in H as [-> _]. exact Hup.
    + intros u Hu Hne Hpt Hqp Hb.
      rewrite (prepare_literal_url _ _ _ _ _ Hm Hvalid Hu Hne Hpt).
      unfold appendQueryParameters. rewrite Hqp. simpl.
      unfold setHeadersAndBody. destruct (defaultHeaders _ _ _ _) as [h uuids].
      unfold setBody. rewrite Hb. simpl. eexists _, _. split; [reflexivity|]. exact Hup.
  - intros Hne _ Hnone. unfold prepare.
    destruct (checkOptions o) as [[]|e]; [|reflexivity]. simpl.
    destruct (setUrl o (url this)) as [u1|e]; [|reflexivity]. simpl.
    rewrite (setMethod_string _ _ Hm).
    destruct (String.eqb_spec s ""); [contradiction|]. simpl.
    destruct (isValidMethod (Js.toUpperCase s)) eqn:Ev; [|reflexivity].
    apply isValidMethod_In in Ev.
    pose proof (sameIgnoringCase_toUpperCase s) as Hx.
    rewrite (Hnone _ Ev) in Hx. discriminate.
  - intros r st' H. destruct (Hok _ _ H) as [Hup Hin]. split; [|intros _; exact Hup].
    destruct Hin as [Hin | ->]; [now left|]. right. split; [reflexivity | exact Hup].
Qed.


End MethodAndUrl.

(** prepare({ method: "pAtch", url: "http://h" }) succeeds with the method
    PATCH. *)
Lemma prepare_method_witness :
  ∃ r st', Sample.prepare (Sample.withUrl "pAtch" "http://h") = Ok (r, st') ∧
           method r = "PATCH".
Proof.
  destruct (prepare_method Sample.serialize Sample.generateUuid
              (Sample.withUrl "pAtch" "http://h") Sample.descriptor.1
              Sample.descriptor.2 "pAtch" eq_refl) as (H & _ & _).
  destruct (H "PATCH") as (_ & _ & Hex); [vm_compute; tauto | reflexivity |].
  apply (Hex "http://h"); [reflexivity | discriminate | reflexivity..].
Defined.

(** C3 as stated fails: prepare({ method: "", url: "http://h" }) succeeds,
    and the method of the descriptor is the empty string, none of the
    verbs. *)
Lemma empty_method_is_accepted :
  ∃ r st', Sample.prepare (Sample.withUrl "" "http://h") = Ok (r, st') ∧
           method r = "" ∧ ¬ In (method r) validMethods.
Proof.
  destruct (Sample.prepare (Sample.withUrl "" "http://h")) as [[r st']|e] eqn:E;
    vm_compute in E; [|discriminate].
  injection E as <- <-. eexists _, _. split; [reflexivity|]. simpl.
  split; [reflexivity|]. intros H.
  repeat (destruct H as [H | H]; [discriminate|]). exact H.
Qed.



(** ** Query composition *)


Lemma appendQueryParam_string n v qs q :
  v ≠ "" ->
  appendQueryParam n (JsString v) qs q
  = Ok (qs ++ [renderPair (n, JsString (Js.encodeURIComponent v))],
        record q (n, JsString (Js.encodeURIComponent v))).
Proof.
  intros H%truthy_JsString. unfold appendQueryParam. now rewrite H.
Qed.

(** One turn of the loop: a truthy string appends its encoded pair, any
    other entry appends nothing or one pair, and only a truthy entry appends
    one; the pair is recorded under the name of the entry. *)
Lemma appendQueryParam_spec n v qs q qs' q' :
  appendQueryParam n v qs q = Ok (qs', q') ->
  (qs' = qs ∧ q' = q ∧ ∀ s, v = JsString s -> s = "") ∨
  (JsV.truthy v = true ∧
   ∃ x, qs' = qs ++ [renderPair (n, x)] ∧ q' = record q (n, x) ∧
        ∀ s, v = JsString s -> x = JsString (Js.encodeURIComponent s)).
Proof.
  destruct v as [| |b|s|props].
  1-3: unfold appendQueryParam; simpl; destruct_and?; try destruct b; simpl;
       intros [= <- <-]; left; repeat split; intros; discriminate.
  - destruct (String.eqb_spec s "") as [-> | Hs].
    + intros [= <- <-]. left. repeat split. congruence.
    + rewrite (appendQueryParam_string _ _ _ _ Hs). intros [= <- <-]. right.
      split; [now apply truthy_JsString|].
      eexists. repeat split. congruence.
  - unfold appendQueryParam. simpl.
    destruct (negb (JsV.truthy (JsV.lookupProp props "value"))); [discriminate|].
    destruct (JsV.truthy (JsV.lookupProp props "skipUrlEncoding"));
      intros [= <- <-]; right; (split; [reflexivity|]).
    + exists (JsV.lookupProp props "value"). repeat split. discriminate.
    + exists (JsString (Js.encodeURIComponent
                         (JsV.toString (JsV.lookupProp props "value")))).
      repeat split. discriminate.
Qed.

Lemma forInQueryParameters_spec props : ∀ qs q qs' q',
  forInQueryParameters props qs q = Ok (qs', q') ->
  ∃ appended : list (string * JsValue),
    qs' = qs ++ (renderPair <$> appended) ∧
    q' = foldl record q appended ∧
    appended.*1 `sublist_of` props.*1 ∧
    (∀ n v, (n, JsString v) ∈ props -> v ≠ "" ->
       (n, JsString (Js.encodeURIComponent v)) ∈ appended) ∧
    (∀ n x, (n, x) ∈ appended -> ∃ v, (n, v) ∈ props ∧ JsV.truthy v = true).
Proof.
  induction props as [|[n v] props IH]; intros qs q qs' q' H; simpl in H.
  - injection H as <- <-. exists []. simpl. rewrite app_nil_r.
    repeat split; auto; intros ? ? Hin; inversion Hin.
  - apply bind_Ok in H as ([qs1 q1] & Hstep & H).
    apply IH in H as (app & -> & -> & Hsub & Hstr & Htruthy).
    destruct (appendQueryParam_spec _ _ _ _ _ _ Hstep)
      as [(-> & -> & He) | (Ht & x & -> & -> & Hx)].
    + exists app. repeat split; auto.
      * simpl. now apply sublist_cons.
      * intros n0 v0 Hin Hne. apply elem_of_cons in Hin as [Heq | Hin].
        -- injection Heq as -> Hv. symmetry in Hv. now apply He in Hv.
        -- now apply Hstr.
      * intros n0 x0 (v0 & Hin & Hv)%Htruthy. exists v0. split; [now right | exact Hv].
    + exists ((n, x) :: app). simpl. rewrite <- app_assoc. repeat split; auto.
      * now apply sublist_skip.
      * intros n0 v0 Hin Hne. apply elem_of_cons in Hin as [Heq | Hin].
        -- injection Heq as -> Hv. symmetry in Hv. rewrite (Hx _ Hv). now left.
        -- right. now apply Hstr.
      * intros n0 x0 Hin. apply elem_of_cons in Hin as [[= -> ->] | Hin].
        -- exists v. split; [now left | exact Ht].
        -- apply Htruthy in Hin as (v0 & Hin & Hv). exists v0. split; [now right | exact Hv].
Qed.

Lemma foldl_record_notin (app : list (string * JsValue)) : ∀ q n,
  n ∉ app.*1 -> foldl record q app !! n = q !! n.
Proof.
  induction app as [|[k x] app IH]; intros q n Hn; simpl in *; [reflexivity|].
  apply not_elem_of_cons in Hn as [Hk Hn]. rewrite IH by assumption.
  unfold record, JsV.assign. simpl.
  destruct (String.eqb k "__proto__"); [reflexivity|]. now rewrite lookup_insert_ne.
Qed.

Lemma assign_proto (q : gmap string JsValue) k v :
  JsV.assign q k v !! "__proto__" = q !! "__proto__".
Proof.
  unfold JsV.assign. destruct (String.eqb_spec k "__proto__") as [-> | Hk]; [reflexivity|].
  now rewrite lookup_insert_ne.
Qed.

Lemma assign_other (q : gmap string JsValue) k v :
  k ≠ "__proto__" -> JsV.assign q k v = <[k := v]> q.
Proof.
  intros Hk. unfold JsV.assign. now destruct (String.eqb_spec k "__proto__").
Qed.

(** The dictionary never gets an entry named __proto__. *)
Lemma foldl_record_proto (app : list (string * JsValue)) : ∀ q,
  foldl record q app !! "__proto__" = q !! "__proto__".
Proof.
  induction app as [|[k x] app IH]; intros q; simpl; [reflexivity|].
  rewrite IH. apply assign_proto.
Qed.

Lemma foldl_record_elem (app : list (string * JsValue)) : ∀ q n v,
  NoDup app.*1 -> (n, v) ∈ app -> n ≠ "__proto__" ->
  foldl record q app !! n = Some v.
Proof.
  induction app as [|[k x] app IH]; intros q n v Hnd Hin Hn; [inversion Hin|].
  simpl in Hnd. apply NoDup_cons in Hnd as [Hk Hnd].
  apply elem_of_cons in Hin as [[= -> ->] | Hin]; simpl.
  - rewrite foldl_record_notin by assumption. unfold record. simpl.
    rewrite assign_other by assumption. apply lookup_insert_eq.
  - now apply IH.
Qed.

Lemma foldl_record_lookup (app : list (string * JsValue)) : ∀ q n v,
  foldl record q app !! n = Some v ->
  ((n, v) ∈ app ∧ n ≠ "__proto__") ∨ q !! n = Some v.
Proof.
  induction app as [|[k x] app IH]; intros q n v H; simpl in H; [now right|].
  apply IH in H as [[H Hn] | H]; [left; split; [now right | exact Hn]|].
  unfold record, JsV.assign in H. simpl in H.
  destruct (String.eqb_spec k "__proto__") as [-> | Hk]; [now right|].
  destruct (decide (k = n)) as [-> | Hne].
  - rewrite lookup_insert_eq in H. injection H as ->. left. split; [now left | exact Hk].
  - rewrite lookup_insert_ne in H by assumption. now right.
Qed.

Lemma NoDup_fst_unique (l : list (string * JsValue)) n v1 v2 :
  NoDup l.*1 -> (n, v1) ∈ l -> (n, v2) ∈ l -> v1 = v2.
Proof.
  intros Hnd H1 H2.
  pose proof (elem_of_list_to_map_1 (M := gmap string) l n v1 Hnd H1) as E1.
  pose proof (elem_of_list_to_map_1 (M := gmap string) l n v2 Hnd H2) as E2.
  congruence.
Qed.

Lemma join_cons sep p ps : ∃ tail, Js.join sep (p :: ps) = p +:+ tail.
Proof.
  destruct ps as [|p' ps]; simpl.
  - exists "". now rewrite append_empty_r.
  - eexists. reflexivity.
Qed.

Section Query.

Variable serialize : JsValue -> JsValue -> JsValue -> string -> Result JsValue.
Variable generateUuid : nat -> string.

Lemma setHeadersAndBody_queryObjs o l st b st' :
  setHeadersAndBody serialize generateUuid o l st = Ok (b, st') ->
  queryObjs st' = queryObjs st.
Proof.
  unfold setHeadersAndBody. destruct (defaultHeaders _ _ _ _) as [h n].
  intros ([b' h'] & _ & H)%bind_Ok. now injection H as _ <-.
Qed.

Lemma prepare_resolvedUrl o this st r st' :
  prepare serialize generateUuid (Some o) this st = Ok (r, st') ->
  ∃ u, resolvedUrl o this = Ok u ∧
       (JsV.truthy (Options.queryParameters o) = false ->
          url r = u ∧ query r = query this).
Proof.
  intros (u1 & m & u2 & u3 & q3 & st3 & b & _ & Hsu & _ & Hcu & Hq & _ & ->)%prepare_inv.
  exists u2. unfold resolvedUrl. rewrite Hsu. simpl. split; [exact Hcu|].
  intros Hf. unfold appendQueryParameters in Hq. rewrite Hf in Hq.
  now injection Hq as <- <- _.
Qed.

Lemma prepare_query_inv o this st r st' qp :
  Options.queryParameters o = JsObject qp ->
  prepare serialize generateUuid (Some o) this st = Ok (r, st') ->
  ∃ u pairs q l,
    resolvedUrl o this = Ok u ∧
    forInQueryParameters qp [] ∅ = Ok (pairs, q) ∧
    url r = (if needsQuestionMark u then u +:+ "?" else u) +:+ Js.join "&" pairs ∧
    query r = Some l ∧ queryObjs st' !! l = Some q.
Proof.
  intros Hqp (u1 & m & u2 & u3 & q3 & st3 & b & _ & Hsu & _ & Hcu & Hq & Hb & ->)%prepare_inv.
  apply setHeadersAndBody_queryObjs in Hb.
  unfold appendQueryParameters in Hq. rewrite Hqp in Hq. simpl in Hq.
  apply bind_Ok in Hq as ([pairs q] & Hloop & Hq). simpl in Hq.
  injection Hq as <- <- <-. simpl in *.
  exists u2, pairs, q, (fresh (dom (queryObjs st))).
  unfold resolvedUrl. rewrite Hsu. simpl.
  repeat split; auto. rewrite Hb. apply lookup_insert_eq.
Qed.


(** C6, as the code has it: when prepare succeeds on query parameters
    given as an object (with one entry for a name), there is a list of
    appended parameters, each a name with its recorded value, such that the
    URL ends with their pairs name=value joined with ampersands, after the
    URL in progress and its question mark; the dictionary this.query holds
    the appended parameters of every name but __proto__ and nothing else, so
    that a parameter named __proto__ is in the URL and not in the
    dictionary; every entry with a truthy string value v is appended with
    the value encodeURIComponent(v), in the URL and, unless its name is
    __proto__, in the dictionary; and no entry with a falsy value is
    appended. *)
Theorem prepare_query_parameters o this st r st' qp :
  Options.queryParameters o = JsObject qp ->
  NoDup qp.*1 ->
  prepare serialize generateUuid (Some o) this st = Ok (r, st') ->
  ∃ u l q (appended : list (string * JsValue)),
    resolvedUrl o this = Ok u ∧
    url r = (if needsQuestionMark u then u +:+ "?" else u)
            +:+ Js.join "&" (renderPair <$> appended) ∧
    query r = Some l ∧ queryObjs st' !! l = Some q ∧
    (∀ n x, q !! n = Some x <-> (n, x) ∈ appended ∧ n ≠ "__proto__") ∧
    (∀ n v, (n, JsString v) ∈ qp -> v ≠ "" ->
       (n, JsString (Js.encodeURIComponent v)) ∈ appended ∧
       (n +:+ "=" +:+ Js.encodeURIComponent v) ∈ (renderPair <$> appended) ∧
       q !! n = if String.eqb n "__proto__" then None
                else Some (JsString (Js.encodeURIComponent v))) ∧
    (∀ n v, (n, v) ∈ qp -> JsV.truthy v = false ->
       q !! n = None ∧ ∀ x, (n, x) ∉ appended).
Proof.
  intros Hqp Hnd H.
  destruct (prepare_query_inv _ _ _ _ _ _ Hqp H)
    as (u & pairs & q & l & Hu & Hloop & Hurl & Hl & Hq).
  apply forInQueryParameters_spec in Hloop as (app & -> & -> & Hsub & Hstr & Htruthy).
  simpl in Hurl.
  assert (Hnd' : NoDup app.*1) by (eapply sublist_NoDup; eassumption).
  assert (Hiff : ∀ n x, foldl record ∅ app !! n = Some x
                        <-> (n, x) ∈ app ∧ n ≠ "__proto__").
  { intros n x. split.
    - intros [Hin | He]%foldl_record_lookup; [exact Hin|].
      rewrite lookup_empty in He. discriminate.
    - intros [Hin Hn]. now apply foldl_record_elem. }
  assert (Hfalsy : ∀ n v, (n, v) ∈ qp -> JsV.truthy v = false -> ∀ x, (n, x) ∉ app).
  { intros n v Hin Hf x (v' & Hin' & Hv')%Htruthy.
    assert (v = v') by exact (NoDup_fst_unique qp n v v' Hnd Hin Hin'). congruence. }
  exists u, l, (foldl record ∅ app), app.
  split; [exact Hu|]. split; [exact Hurl|]. split; [exact Hl|].
  split; [exact Hq|]. split; [exact Hiff|]. split.
  - intros n v Hin Hne. pose proof (Hstr _ _ Hin Hne) as Ha.
    split; [exact Ha|]. split.
    + exact (list_elem_of_fmap_2 renderPair app _ Ha).
    + destruct (String.eqb_spec n "__proto__") as [-> | Hn].
      * rewrite foldl_record_proto. apply lookup_empty.
      * apply Hiff. now split.
  - intros n v Hin Hf. split; [|exact (Hfalsy n v Hin Hf)].
    destruct (foldl record ∅ app !! n) as [x|] eqn:E; [|reflexivity].
    apply Hiff in E as [E _]. now apply (Hfalsy n v Hin Hf) in E.
Qed.

End Query.


(** The call with the parameters q and __proto__, both "a&b", yields the
    URL http://h/p?q=a%26b&__proto__=a%26b and a dictionary that holds q and
    no entry named __proto__. *)
Lemma prepare_query_parameters_witness :
  ∃ r st' l q,
    Sample.prepare protoQuery = Ok (r, st') ∧
    url r = "http://h/p?q=a%26b&__proto__=a%26b" ∧
    query r = Some l ∧ queryObjs st' !! l = Some q ∧
    q !! "q" = Some (JsString "a%26b") ∧ q !! "__proto__" = None.
Proof.
  destruct (Sample.prepare protoQuery) as [[r st']|e] eqn:E;
    [|vm_compute in E; discriminate].
  assert (Hnd : NoDup [("q", JsString "a&b"); ("__proto__", JsString "a&b")].*1).
  { simpl. compute_done. }
  destruct (prepare_query_parameters Sample.serialize Sample.generateUuid
              protoQuery Sample.descriptor.1 Sample.descriptor.2 r st'
              [("q", JsString "a&b"); ("__proto__", JsString "a&b")] eq_refl Hnd E)
    as (u & l & q & app & _ & _ & Hl & Hq & _ & Hstr & _).
  exists r, st', l, q. split; [reflexivity|].
  split; [vm_compute in E; now injection E as <- _|].
  split; [exact Hl|]. split; [exact Hq|].
  split.
  - apply (Hstr "q" "a&b"); [now left | discriminate].
  - apply (Hstr "__proto__" "a&b"); [right; now left | discriminate].
Defined.

(** ** Template resolution *)

Lemma hasChar_app c a b : Js.hasChar c (a +:+ b) = Js.hasChar c a || Js.hasChar c b.
Proof.
  induction a as [|x a IH]; simpl; [reflexivity|]. now rewrite IH, orb_assoc.
Qed.

Lemma encodeChar_no_dollar : ∀ c, Js.hasChar "$" (Js.encodeChar c) = false.
Proof. all_chars. Qed.

Lemma encodeChar_no_brace : ∀ c, Js.hasChar "{" (Js.encodeChar c) = false.
Proof. all_chars. Qed.

Lemma encodeURIComponent_no_dollar s : Js.hasChar "$" (Js.encodeURIComponent s) = false.
Proof.
  induction s as [|c s IH]; simpl; [reflexivity|].
  now rewrite hasChar_app, encodeChar_no_dollar, IH.
Qed.

Lemma encodeURIComponent_no_brace s : Js.hasChar "{" (Js.encodeURIComponent s) = false.
Proof.
  induction s as [|c s IH]; simpl; [reflexivity|].
  now rewrite hasChar_app, encodeChar_no_brace, IH.
Qed.

(** A replacement text without a dollar is inserted as it is. *)
Lemma getSubstitution_no_dollar matched before after replacement :
  Js.hasChar "$" replacement = false ->
  Js.getSubstitution matched before after replacement = replacement.
Proof.
  induction replacement as [|c r IH]; [reflexivity|].
  intros H. simpl in H. apply orb_false_elim in H as [Hc Hr]. specialize (IH Hr).
  destruct c as [[] [] [] [] [] [] [] []];
    first [discriminate Hc | simpl; rewrite IH; reflexivity].
Qed.

Lemma prefix_app pat s : String.prefix pat (pat +:+ s) = true.
Proof.
  induction pat as [|c pat IH]; simpl; [now destruct s|].
  destruct (ascii_dec c c); [exact IH | contradiction].
Qed.

Lemma dropChars_app pat s : Js.dropChars (String.length pat) (pat +:+ s) = s.
Proof. induction pat as [|c pat IH]; simpl; [now destruct s | exact IH]. Qed.

Lemma splitAtFirst_cons pat x s :
  Js.splitAtFirst pat (String x s)
  = if String.prefix pat (String x s)
    then Some ("", Js.dropChars (String.length pat) (String x s))
    else match Js.splitAtFirst pat s with
         | Some (before, after) => Some (String x before, after)
         | None => None
         end.
Proof. reflexivity. Qed.

Lemma prefix_other_head c pat x s :
  Ascii.eqb c x = false -> String.prefix (String c pat) (String x s) = false.
Proof.
  intros H. simpl. destruct (ascii_dec c x) as [-> | _]; [|reflexivity].
  now rewrite Ascii.eqb_refl in H.
Qed.

(** The first occurrence of a text that starts with [c] does not lie in a
    prefix that is free of [c]. *)
Lemma splitAtFirst_after_prefix c pat before after :
  Js.hasChar c before = false ->
  Js.splitAtFirst (String c pat) (before +:+ String c pat +:+ after)
  = Some (before, after).
Proof.
  induction before as [|x before IH]; intros Hfree.
  - change ("" +:+ String c pat +:+ after) with (String c (pat +:+ after)).
    rewrite splitAtFirst_cons.
    change (String c (pat +:+ after)) with (String c pat +:+ after).
    now rewrite prefix_app, dropChars_app.
  - simpl in Hfree. apply orb_false_elim in Hfree as [Hx Hfree].
    change (String x before +:+ String c pat +:+ after)
      with (String x (before +:+ String c pat +:+ after)).
    now rewrite splitAtFirst_cons, (prefix_other_head _ _ _ _ Hx), (IH Hfree).
Qed.

Lemma replace_after_prefix c pat before after replacement :
  Js.hasChar c before = false ->
  Js.hasChar "$" replacement = false ->
  Js.replace (before +:+ String c pat +:+ after) (String c pat) replacement
  = before +:+ replacement +:+ after.
Proof.
  intros Hb Hr. unfold Js.replace.
  now rewrite splitAtFirst_after_prefix, getSubstitution_no_dollar.
Qed.

Lemma takeWhile_dropWhile p s : Js.takeWhile p s +:+ Js.dropWhile p s = s.
Proof.
  induction s as [|c s IH]; simpl; [reflexivity|].
  destruct (p c); simpl; [now rewrite IH | reflexivity].
Qed.

Lemma takeWhile_until p s c rest :
  p c = false -> Js.takeWhile p (s +:+ String c rest) = Js.takeWhile p s.
Proof.
  intros Hc. induction s as [|x s IH]; simpl; [now rewrite Hc|].
  destruct (p x); [now rewrite IH | reflexivity].
Qed.

Lemma dropWhile_until p s c rest :
  p c = false ->
  Js.dropWhile p (s +:+ String c rest) = Js.dropWhile p s +:+ String c rest.
Proof.
  intros Hc. induction s as [|x s IH]; simpl; [now rewrite Hc|].
  destruct (p x); [exact IH | reflexivity].
Qed.

Lemma dropWhile_all_app p w s :
  Js.allChars p w = true -> Js.dropWhile p (w +:+ s) = Js.dropWhile p s.
Proof.
  induction w as [|x w IH]; simpl; [reflexivity|].
  intros [Hx Hw]%andb_prop. rewrite Hx. now apply IH.
Qed.

Lemma dropWhile_all p w : Js.allChars p w = true -> Js.dropWhile p w = "".
Proof.
  intros H. rewrite <- (append_empty_r w). now rewrite dropWhile_all_app.
Qed.

Lemma dropWhile_none p q w s :
  (∀ c, q c = true -> p c = false) ->
  Js.allChars q w = true -> w ≠ "" -> Js.dropWhile p (w +:+ s) = w +:+ s.
Proof.
  intros Hpq Hw Hne. destruct w as [|x w]; [contradiction|].
  simpl in *. apply andb_prop in Hw as [Hx _]. now rewrite (Hpq _ Hx).
Qed.

Lemma word_not_space : ∀ c, Js.isWordChar c = true -> Js.isSpaceChar c = false.
Proof. all_chars. Qed.

Lemma space_not_word : ∀ c, Js.isSpaceChar c = true -> Js.isWordChar c = false.
Proof. all_chars. Qed.

Lemma word_not_brace : ∀ c, Js.isWordChar c = true -> Ascii.eqb "{" c = false.
Proof. all_chars. Qed.

Lemma space_not_brace : ∀ c, Js.isSpaceChar c = true -> Ascii.eqb "{" c = false.
Proof. all_chars. Qed.

Lemma allChars_hasChar p c w :
  (∀ x, p x = true -> Ascii.eqb c x = false) ->
  Js.allChars p w = true -> Js.hasChar c w = false.
Proof.
  intros Hp. induction w as [|x w IH]; simpl; [reflexivity|].
  intros [Hx Hw]%andb_prop. now rewrite (Hp _ Hx), IH.
Qed.

Lemma placeholderName_no_brace n : isPlaceholderName n -> Js.hasChar "{" n = false.
Proof.
  intros (w1 & sp & w2 & -> & H1 & Hs & H2). rewrite !hasChar_app.
  rewrite (allChars_hasChar _ _ _ word_not_brace H1).
  rewrite (allChars_hasChar _ _ _ space_not_brace Hs).
  now rewrite (allChars_hasChar _ _ _ word_not_brace H2).
Qed.

Lemma placeholderName_runs n :
  isPlaceholderName n ->
  Js.dropWhile Js.isWordChar (Js.dropWhile Js.isSpaceChar (Js.dropWhile Js.isWordChar n))
  = "".
Proof.
  intros (w1 & sp & w2 & -> & H1 & Hs & H2).
  rewrite (dropWhile_all_app _ _ _ H1).
  destruct (String.eqb_spec sp "") as [-> | Hsp].
  - change ("" +:+ w2) with w2. now rewrite (dropWhile_all _ _ H2).
  - rewrite (dropWhile_none _ _ _ _ space_not_word Hs Hsp).
    rewrite (dropWhile_all_app _ _ _ Hs).
    destruct (String.eqb_spec w2 "") as [-> | Hw2]; [reflexivity|].
    rewrite <- (append_empty_r w2).
    rewrite (dropWhile_none _ _ _ _ word_not_space H2 Hw2).
    now rewrite dropWhile_all_app.
Qed.

(** The regular expression matches a placeholder in braces where it
    stands. *)
Lemma placeholderAt_name n rest :
  isPlaceholderName n ->
  Template.placeholderAt ("{" +:+ n +:+ "}" +:+ rest) = Some ("{" +:+ n +:+ "}").
Proof.
  intros Hn. pose proof (placeholderName_runs n Hn) as Hruns.
  change ("{" +:+ n +:+ "}" +:+ rest) with (String "{" (n +:+ String "}" rest)).
  unfold Template.placeholderAt.
  rewrite !dropWhile_until, Hruns by reflexivity.
  rewrite !takeWhile_until, ?dropWhile_until by reflexivity.
  change ("" +:+ String "}" rest) with (String "}" rest). cbv iota beta.
  pose proof (takeWhile_dropWhile Js.isWordChar n) as E1.
  pose proof (takeWhile_dropWhile Js.isSpaceChar (Js.dropWhile Js.isWordChar n)) as E2.
  pose proof (takeWhile_dropWhile Js.isWordChar
                (Js.dropWhile Js.isSpaceChar (Js.dropWhile Js.isWordChar n))) as E3.
  rewrite Hruns, append_empty_r in E3. rewrite E3.
  rewrite <- (append_assoc (Js.takeWhile Js.isSpaceChar _) _ "}"), E2.
  rewrite <- (append_assoc (Js.takeWhile Js.isWordChar n) _ "}"), E1.
  reflexivity.
Qed.

Lemma dropLast_app n : Js.dropLast (n +:+ "}") = n.
Proof.
  induction n as [|c n IH]; [reflexivity|].
  change (String c n +:+ "}") with (String c (n +:+ "}")).
  simpl. rewrite IH. now destruct n.
Qed.

Lemma slice1m1_placeholder n : Js.slice1m1 ("{" +:+ n +:+ "}") = n.
Proof. unfold Js.slice1m1. simpl. apply dropLast_app. Qed.

Lemma segments_after_prefix before s :
  Js.hasChar "{" before = false ->
  Template.segments (before +:+ s) = Template.segments s.
Proof.
  induction before as [|x before IH]; [reflexivity|].
  simpl. intros [Hx Hb]%orb_false_elim. rewrite (IH Hb).
  destruct x as [[] [] [] [] [] [] [] []]; try reflexivity; discriminate.
Qed.

Lemma segments_placeholder n rest :
  isPlaceholderName n ->
  Template.segments ("{" +:+ n +:+ "}" +:+ rest)
  = ("{" +:+ n +:+ "}") :: Template.segments rest.
Proof.
  intros Hn.
  change (Template.segments ("{" +:+ n +:+ "}" +:+ rest))
    with (match Template.placeholderAt ("{" +:+ n +:+ "}" +:+ rest) with
          | Some item => item :: Template.segments (n +:+ "}" +:+ rest)
          | None => Template.segments (n +:+ "}" +:+ rest)
          end).
  rewrite (placeholderAt_name _ _ Hn). f_equal.
  rewrite <- append_assoc. apply segments_after_prefix.
  rewrite hasChar_app, (placeholderName_no_brace _ Hn). reflexivity.
Qed.

Lemma allChars_takeWhile p s : Js.allChars p (Js.takeWhile p s) = true.
Proof.
  induction s as [|c s IH]; simpl; [reflexivity|].
  destruct (p c) eqn:E; simpl; [now rewrite E|reflexivity].
Qed.

(** The matches of [Template.segments] are those of a search that resumes
    after each match: where a placeholder matches, the text is the match
    followed by a rest, and the matches are that one and those of the rest. *)
Lemma segments_resume s item :
  Template.placeholderAt s = Some item ->
  ∃ rest, s = item +:+ rest ∧
          Template.segments s = item :: Template.segments rest.
Proof.
  destruct s as [|c r]; [discriminate|].
  destruct c as [[] [] [] [] [] [] [] []]; try discriminate.
  unfold Template.placeholderAt.
  set (w1 := Js.takeWhile Js.isWordChar r).
  set (r1 := Js.dropWhile Js.isWordChar r).
  set (sp := Js.takeWhile Js.isSpaceChar r1).
  set (r2 := Js.dropWhile Js.isSpaceChar r1).
  set (w2 := Js.takeWhile Js.isWordChar r2).
  destruct (Js.dropWhile Js.isWordChar r2) as [|d rest] eqn:E3; [discriminate|].
  destruct d as [[] [] [] [] [] [] [] []]; try discriminate.
  intros [= <-]. exists rest.
  assert (Hr : r = w1 +:+ sp +:+ w2 +:+ "}" +:+ rest).
  { change ("}" +:+ rest) with (String "}" rest). rewrite <- E3.
    subst w2. rewrite takeWhile_dropWhile.
    subst sp r2. rewrite takeWhile_dropWhile.
    subst w1 r1. now rewrite takeWhile_dropWhile. }
  assert (Hname : isPlaceholderName (w1 +:+ sp +:+ w2)).
  { exists w1, sp, w2. repeat split; apply allChars_takeWhile. }
  assert (Hs : String "{" r = "{" +:+ (w1 +:+ sp +:+ w2) +:+ "}" +:+ rest).
  { rewrite Hr. change ("{" +:+ ?x) with (String "{" x). f_equal.
    now rewrite !append_assoc. }
  split.
  - rewrite Hs. change ("{" +:+ ?x) with (String "{" x). simpl. f_equal.
    now rewrite !append_assoc.
  - rewrite Hs, (segments_placeholder _ _ Hname). f_equal.
    change ("{" +:+ ?x) with (String "{" x). f_equal. now rewrite !append_assoc.
Qed.

Lemma relativeTemplate_slice pathTemplate :
  (if Js.startsWith "/" pathTemplate then Js.slice1 pathTemplate else pathTemplate)
  = relativeTemplate pathTemplate.
Proof.
  destruct pathTemplate as [|c t]; [reflexivity|].
  destruct c as [[] [] [] [] [] [] [] []]; reflexivity.
Qed.

Lemma lookupProp_not_own props k :
  JsV.hasOwn props k = false -> JsV.lookupProp props k = JsUndefined.
Proof.
  induction props as [|[k' v] props IH]; simpl; [reflexivity|].
  destruct (String.eqb k' k); simpl; [discriminate | exact IH].
Qed.

(** A property read finds the own property, or, for the name __proto__
    without one, the prototype. *)
Lemma member_cases props k :
  JsV.member props k = JsV.lookupProp props k ∨
  (JsV.lookupProp props k = JsUndefined ∧ JsV.member props k = JsObject []).
Proof.
  unfold JsV.member. destruct (JsV.hasOwn props k) eqn:E; [now left|].
  apply lookupProp_not_own in E. rewrite E.
  destruct (String.eqb k "__proto__"); [right | left]; auto.
Qed.

Lemma member_own props k :
  JsV.lookupProp props k ≠ JsUndefined -> JsV.member props k = JsV.lookupProp props k.
Proof. intros H. destruct (member_cases props k) as [E | [E _]]; congruence. Qed.

(** A placeholder {__proto__} without an own parameter of that name reads
    Object.prototype, an object without a value: the error is the one of
    line 163, not the one of line 151. *)
Lemma substitute_proto_placeholder pathTemplate pp url :
  JsV.hasOwn pp "__proto__" = false ->
  substitute pathTemplate pp url "{__proto__}"
  = Throw (MissingPathParameterValue "__proto__").
Proof.
  intros H. unfold substitute.
  change (Js.slice1m1 "{__proto__}") with "__proto__".
  unfold JsV.member. now rewrite H.
Qed.

Lemma substitute_string pathTemplate pp before n v after :
  isPlaceholderName n ->
  JsV.lookupProp pp n = JsString v ->
  Js.hasChar "{" before = false ->
  substitute pathTemplate pp (before +:+ ("{" +:+ n +:+ "}") +:+ after)
    ("{" +:+ n +:+ "}")
  = Ok (before +:+ Js.encodeURIComponent v +:+ after).
Proof.
  intros Hn Hv Hb. unfold substitute.
  rewrite slice1m1_placeholder, member_own, Hv by (rewrite Hv; discriminate).
  simpl. f_equal.
  exact (replace_after_prefix "{" (n +:+ "}") before after (Js.encodeURIComponent v)
           Hb (encodeURIComponent_no_dollar v)).
Qed.

Lemma substituteAll_filled pathTemplate pp template url :
  Filled pp template url ->
  ∀ before, Js.hasChar "{" before = false ->
    substituteAll pathTemplate pp (Template.segments template) (before +:+ template)
    = Ok (before +:+ url).
Proof.
  induction 1 as [|c template url Hc _ IH|n v template url Hn Hv _ IH]; intros before Hb.
  - reflexivity.
  - assert (Hseg : Template.segments (String c template) = Template.segments template).
    { apply (segments_after_prefix (String c "")).
      change (Ascii.eqb "{" c || false = false). now rewrite Hc. }
    rewrite Hseg.
    change (String c template) with (String c "" +:+ template).
    change (String c url) with (String c "" +:+ url).
    rewrite <- !append_assoc. apply IH.
    rewrite hasChar_app, Hb.
    change (false || (Ascii.eqb "{" c || false) = false). now rewrite Hc.
  - rewrite (segments_placeholder _ _ Hn).
    assert (Eq : "{" +:+ n +:+ "}" +:+ template = ("{" +:+ n +:+ "}") +:+ template)
      by now rewrite !append_assoc.
    rewrite Eq.
    change (substitute pathTemplate pp (before +:+ ("{" +:+ n +:+ "}") +:+ template)
              ("{" +:+ n +:+ "}")
            ≫= substituteAll pathTemplate pp (Template.segments template)
            = Ok (before +:+ Js.encodeURIComponent v +:+ url)).
    rewrite (substitute_string _ _ _ _ _ _ Hn Hv Hb).
    change (substituteAll pathTemplate pp (Template.segments template)
              (before +:+ Js.encodeURIComponent v +:+ template)
            = Ok (before +:+ Js.encodeURIComponent v +:+ url)).
    rewrite <- !append_assoc. apply IH.
    now rewrite hasChar_app, Hb, encodeURIComponent_no_brace.
Qed.

Section Template.

Variable serialize : JsValue -> JsValue -> JsValue -> string -> Result JsValue.
Variable generateUuid : nat -> string.

(** C8, amended: for a prepare call with a non-empty pathTemplate, no url
    and no explicit baseUrl, whose template (after one leading slash is taken
    off) is filled to [resolved] by the string values of pathParameters,
    every opening brace of the template opening a placeholder, the URL in
    progress is the default base, one slash and [resolved]; it is the URL of
    the descriptor when prepare succeeds without query parameters. *)
Theorem prepare_template_url o this st pathTemplate pp resolved :
  Options.pathTemplate o = JsString pathTemplate ->
  pathTemplate ≠ "" ->
  JsV.truthy (Options.url o) = false ->
  Options.baseUrl o = None ∨ Options.baseUrl o = Some "" ->
  Options.pathParameters o = Some pp ->
  Filled pp (relativeTemplate pathTemplate) resolved ->
  resolvedUrl o this = Ok (defaultBaseUrl +:+ "/" +:+ resolved) ∧
  ∀ r st',
    prepare serialize generateUuid (Some o) this st = Ok (r, st') ->
    JsV.truthy (Options.queryParameters o) = false ->
    url r = defaultBaseUrl +:+ "/" +:+ resolved.
Proof.
  intros Hpt Hne Hu Hbase Hpp Hfill.
  assert (Hres : resolvedUrl o this = Ok (defaultBaseUrl +:+ "/" +:+ resolved)).
  { unfold resolvedUrl, setUrl. rewrite Hu. simpl.
    unfold constructUrl. rewrite Hpt, (proj2 (truthy_JsString _) Hne), Hpp.
    assert (Hb : match Options.baseUrl o with
                 | Some b => if String.eqb b "" then defaultBaseUrl else b
                 | None => defaultBaseUrl
                 end = defaultBaseUrl) by (destruct Hbase as [-> | ->]; reflexivity).
    rewrite Hb, relativeTemplate_slice.
    change (if Js.endsWith "/" defaultBaseUrl then "" else "/") with "/".
    rewrite <- !(append_assoc defaultBaseUrl "/").
    rewrite (segments_after_prefix (defaultBaseUrl +:+ "/")) by reflexivity.
    pose proof (substituteAll_filled pathTemplate pp _ _ Hfill
                  (defaultBaseUrl +:+ "/") eq_refl) as Hall.
    destruct (Template.segments (relativeTemplate pathTemplate)); exact Hall. }
  split; [exact Hres|].
  intros r st' (u & Hu' & Hq)%prepare_resolvedUrl Hqp.
  rewrite Hres in Hu'. injection Hu' as <-. now apply Hq.
Qed.

End Template.

(** The template /a/{x}/b with { x: "v" } resolves to
    https://management.azure.com/a/v/b. *)
Lemma prepare_template_url_witness :
  ∃ r st',
    Sample.prepare (Sample.withTemplate "GET" "/a/{x}/b" [("x", JsString "v")])
    = Ok (r, st') ∧
    url r = "https://management.azure.com/a/v/b".
Proof.
  destruct (Sample.prepare (Sample.withTemplate "GET" "/a/{x}/b" [("x", JsString "v")]))
    as [[r st']|e] eqn:E; [|vm_compute in E; discriminate].
  exists r, st'. split; [reflexivity|].
  assert (Hfill : Filled [("x", JsString "v")] (relativeTemplate "/a/{x}/b") "a/v/b").
  { simpl. do 2 (apply Filled_char; [reflexivity|]).
    apply (Filled_placeholder [("x", JsString "v")] "x" "v" "/b" "/b").
    - exists "x", "", "". repeat split.
    - reflexivity.
    - do 2 (apply Filled_char; [reflexivity|]). apply Filled_end. }
  destruct (prepare_template_url Sample.serialize Sample.generateUuid
              (Sample.withTemplate "GET" "/a/{x}/b" [("x", JsString "v")])
              Sample.descriptor.1 Sample.descriptor.2 "/a/{x}/b"
              [("x", JsString "v")] "a/v/b"
              eq_refl ltac:(discriminate) eq_refl (or_introl eq_refl) eq_refl Hfill)
    as [_ H].
  apply (H r st' E). reflexivity.
Defined.

(** C8 as stated fails on a template with a brace outside a placeholder:
    in {{a}}/{x} with { a: "x", x: "v" } the placeholders are {a} and {x},
    and replacing each by its value gives {x}/v; the code replaces {a}, which
    leaves {x}/{x}, and then the first occurrence of {x}, the one the first
    replacement made.  It also fails for the empty template, which passes
    the checks and resolves nothing. *)
Lemma brace_around_placeholder_misplaces_value :
  (∃ r st',
     Sample.prepare
       (Sample.withTemplate "GET" "{{a}}/{x}" [("a", JsString "x"); ("x", JsString "v")])
     = Ok (r, st') ∧
     url r = "https://management.azure.com/v/{x}" ∧
     url r ≠ defaultBaseUrl +:+ "/" +:+ "{" +:+ Js.encodeURIComponent "x" +:+ "}/"
             +:+ Js.encodeURIComponent "v") ∧
  (∃ r st',
     Sample.prepare (Sample.withTemplate "GET" "" []) = Ok (r, st') ∧
     url r = "" ∧ url r ≠ defaultBaseUrl +:+ "/" +:+ "").
Proof.
  split.
  - destruct (Sample.prepare _) as [[r st']|e] eqn:E; vm_compute in E; [|discriminate].
    injection E as <- <-. eexists _, _. split; [reflexivity|]. simpl.
    split; [reflexivity | discriminate].
  - destruct (Sample.prepare _) as [[r st']|e] eqn:E; vm_compute in E; [|discriminate].
    injection E as <- <-. eexists _, _. split; [reflexivity|]. simpl.
    split; [reflexivity | discriminate].
Qed.

(** ** The encoding policy of wrapped parameters *)


(** The same wrapper as a query parameter: the pair holds the value,
    percent-encoded unless skipUrlEncoding is truthy, as it is. *)
Lemma appendQueryParam_wrapper n props qs q :
  JsV.truthy (JsV.lookupProp props "value") = true ->
  ∃ x, appendQueryParam n (JsObject props) qs q
       = Ok (qs ++ [n +:+ "=" +:+ JsV.toString x], JsV.assign q n x) ∧
       JsV.toString x
       = if JsV.truthy (JsV.lookupProp props "skipUrlEncoding")
         then JsV.toString (JsV.lookupProp props "value")
         else Js.encodeURIComponent (JsV.toString (JsV.lookupProp props "value")).
Proof.
  intros Hv. unfold appendQueryParam. simpl. rewrite Hv. simpl.
  destruct (JsV.truthy (JsV.lookupProp props "skipUrlEncoding")).
  - exists (JsV.lookupProp props "value"). split; reflexivity.
  - exists (JsString (Js.encodeURIComponent
                       (JsV.toString (JsV.lookupProp props "value")))).
    split; reflexivity.
Qed.

(** C7, at the input where the code departs from it: the wrapper
    { value: "$$", skipUrlEncoding: true } for the placeholder of /a/{x}
    is substituted as a single dollar, because url.replace expands dollar
    patterns in its replacement text, while the same wrapper as a query
    parameter is appended as it is. *)
Theorem skip_encoding_path_value_is_expanded :
  (∃ r st',
     Sample.prepare (Sample.withTemplate "GET" "/a/{x}" [("x", dollarWrapper)])
     = Ok (r, st') ∧
     url r = "https://management.azure.com/a/$" ∧
     url r ≠ "https://management.azure.com/a/$$") ∧
  (∃ r st',
     Sample.prepare
       (Sample.options (JsString "GET") (JsString "http://h/p") JsUndefined None
          (JsObject [("x", dollarWrapper)]) None JsUndefined JsUndefined false)
     = Ok (r, st') ∧
     url r = "http://h/p?x=$$").
Proof.
  split.
  - destruct (Sample.prepare _) as [[r st']|e] eqn:E; vm_compute in E; [|discriminate].
    injection E as <- <-. eexists _, _. split; [reflexivity|]. simpl.
    split; [reflexivity | discriminate].
  - destruct (Sample.prepare _) as [[r st']|e] eqn:E; vm_compute in E; [|discriminate].
    injection E as <- <-. eexists _, _. split; reflexivity.
Qed.

(** ** Header defaulting *)

Ltac header_keys :=
  repeat first
    [ rewrite get_set_eq by reflexivity
    | rewrite get_set_ne by (vm_compute; discriminate) ].

Lemma streamHeaders_other (h : HttpHeaders) n :
  HttpHeaders.getHeaderKey n ≠ "transfer-encoding" ->
  HttpHeaders.getHeaderKey n ≠ "content-type" ->
  HttpHeaders.get (streamHeaders h) n = HttpHeaders.get h n.
Proof.
  intros H1 H2. unfold streamHeaders.
  assert (K : ∀ (h' : HttpHeaders) k v,
             (k = "Transfer-Encoding" ∨ k = "Content-Type") ->
             HttpHeaders.get (HttpHeaders.set h' k v) n = HttpHeaders.get h' n).
  { intros h' k v Hk. apply get_set_ne. intros E.
    destruct Hk as [-> | ->]; [apply H1 | apply H2]; rewrite <- E; reflexivity. }
  destruct (negb (isSet _)); destruct (negb (bool_decide _)); rewrite ?K; auto.
Qed.

Lemma defaultHeaders_accept_language generateUuid o uuids (h : HttpHeaders) :
  HttpHeaders.get (defaultHeaders generateUuid o uuids h).1 "accept-language"
  = if isSet (HttpHeaders.get h "accept-language")
    then HttpHeaders.get h "accept-language" else Some "en-US".
Proof.
  unfold defaultHeaders.
  destruct (isSet (HttpHeaders.get h "accept-language")); simpl;
    destruct (negb (isSet (HttpHeaders.get _ "x-ms-client-request-id")) && _); simpl;
    destruct (negb (isSet (HttpHeaders.get _ "Content-Type"))); simpl;
    header_keys; reflexivity.
Qed.

Lemma defaultHeaders_request_id generateUuid o uuids (h : HttpHeaders) :
  HttpHeaders.get (defaultHeaders generateUuid o uuids h).1 "x-ms-client-request-id"
  = (if isSet (HttpHeaders.get h "x-ms-client-request-id")
        || Options.disableClientRequestId o
     then HttpHeaders.get h "x-ms-client-request-id"
     else Some (generateUuid uuids)) ∧
  (defaultHeaders generateUuid o uuids h).2
  = if isSet (HttpHeaders.get h "x-ms-client-request-id")
       || Options.disableClientRequestId o
    then uuids else S uuids.
Proof.
  unfold defaultHeaders.
  set (h1 := if negb (isSet (HttpHeaders.get h "accept-language")) then _ else _).
  assert (E1 : HttpHeaders.get h1 "x-ms-client-request-id"
               = HttpHeaders.get h "x-ms-client-request-id").
  { subst h1. destruct (negb _); header_keys; reflexivity. }
  rewrite E1.
  destruct (isSet (HttpHeaders.get h "x-ms-client-request-id")); simpl;
    destruct (Options.disableClientRequestId o); simpl;
    destruct (negb (isSet (HttpHeaders.get _ "Content-Type"))); simpl;
    header_keys; auto.
Qed.

Lemma defaultHeaders_content_type generateUuid o uuids (h : HttpHeaders) :
  HttpHeaders.get (defaultHeaders generateUuid o uuids h).1 "Content-Type"
  = if isSet (HttpHeaders.get h "Content-Type")
    then HttpHeaders.get h "Content-Type"
    else Some "application/json; charset=utf-8".
Proof.
  unfold defaultHeaders.
  set (h1 := if negb (isSet (HttpHeaders.get h "accept-language")) then _ else _).
  assert (E1 : HttpHeaders.get h1 "Content-Type" = HttpHeaders.get h "Content-Type").
  { subst h1. destruct (negb _); header_keys; reflexivity. }
  set (p := if negb (isSet (HttpHeaders.get h1 "x-ms-client-request-id")) && _
            then _ else _).
  assert (E2 : HttpHeaders.get p.1 "Content-Type" = HttpHeaders.get h "Content-Type").
  { subst p. destruct (_ && _); simpl; header_keys; exact E1. }
  destruct p as [h2 n]. simpl in *. rewrite E2.
  destruct (isSet (HttpHeaders.get h "Content-Type")); simpl; header_keys; auto.
Qed.

Section Defaults.

Variable serialize : JsValue -> JsValue -> JsValue -> string -> Result JsValue.
Variable generateUuid : nat -> string.

(** The headers after prepare: those of the defaulting step, changed by
    the stream headers when the body is defined and is a stream. *)
Lemma prepare_final_headers o this st r st' :
  prepare serialize generateUuid (Some o) this st = Ok (r, st') ->
  headersAt st' (headers r)
  = if negb (JsV.isNullish (Options.body o)) && Options.bodyIsStream o
    then streamHeaders (defaultedHeaders generateUuid o this st)
    else defaultedHeaders generateUuid o this st.
Proof.
  intros (_ & Hb & _)%prepare_headers_body. unfold setBody in Hb.
  destruct (negb (JsV.isNullish (Options.body o))); simpl in *;
    [|now injection Hb as _ <-].
  destruct (Options.bodyIsStream o); [now injection Hb as _ <-|].
  apply bind_Ok in Hb as (b1 & _ & Hb). now injection Hb as _ <-.
Qed.

(** C9, amended: after a successful prepare, with [merged] the headers once
    those of the caller are set, accept-language is the merged value when
    that is non-empty and en-US otherwise; x-ms-client-request-id is the
    merged value when that is non-empty or disableClientRequestId is set, and
    otherwise the next identifier of the generator, which is then used up;
    the defaulting step leaves Content-Type at the merged value when that is
    non-empty and sets the JSON content type otherwise, and this is the final
    Content-Type unless the body is a stream.  A header that is absent or
    empty counts as not set: a non-empty header is never overwritten by a
    default. *)
Theorem prepare_default_headers o this st r st' :
  prepare serialize generateUuid (Some o) this st = Ok (r, st') ->
  let merged := mergedHeaders o this st in
  let final := headersAt st' (headers r) in
  HttpHeaders.get final "accept-language"
    = (if isSet (HttpHeaders.get merged "accept-language")
       then HttpHeaders.get merged "accept-language" else Some "en-US") ∧
  HttpHeaders.get final "x-ms-client-request-id"
    = (if isSet (HttpHeaders.get merged "x-ms-client-request-id")
          || Options.disableClientRequestId o
       then HttpHeaders.get merged "x-ms-client-request-id"
       else Some (generateUuid (uuidCount st))) ∧
  uuidCount st'
    = (if isSet (HttpHeaders.get merged "x-ms-client-request-id")
          || Options.disableClientRequestId o
       then uuidCount st else S (uuidCount st)) ∧
  HttpHeaders.get (defaultedHeaders generateUuid o this st) "Content-Type"
    = (if isSet (HttpHeaders.get merged "Content-Type")
       then HttpHeaders.get merged "Content-Type"
       else Some "application/json; charset=utf-8") ∧
  (negb (JsV.isNullish (Options.body o)) && Options.bodyIsStream o = false ->
   final = defaultedHeaders generateUuid o this st).
Proof.
  intros H merged final.
  pose proof (prepare_final_headers _ _ _ _ _ H) as Hf.
  pose proof (prepare_headers_body _ _ _ _ _ _ _ H) as (_ & _ & Hn).
  fold final in Hf. fold merged in Hn.
  assert (Hother : ∀ n, HttpHeaders.getHeaderKey n ≠ "transfer-encoding" ->
            HttpHeaders.getHeaderKey n ≠ "content-type" ->
            HttpHeaders.get final n
            = HttpHeaders.get (defaultedHeaders generateUuid o this st) n).
  { intros n H1 H2. rewrite Hf. destruct (_ && _); [|reflexivity].
    now apply streamHeaders_other. }
  unfold defaultedHeaders in *. fold merged in Hother |- *.
  split; [|split; [|split; [|split]]].
  - rewrite Hother by (vm_compute; discriminate). apply defaultHeaders_accept_language.
  - rewrite Hother by (vm_compute; discriminate). apply defaultHeaders_request_id.
  - rewrite Hn. apply defaultHeaders_request_id.
  - apply defaultHeaders_content_type.
  - intros Hs. now rewrite Hs in Hf.
Qed.

End Defaults.

Lemma prepare_default_headers_witness :
  Sample.headerOf (Sample.prepare frenchRequest) "accept-language" = Some "fr" ∧
  Sample.headerOf (Sample.prepare frenchRequest) "x-ms-client-request-id"
    = Some (Sample.generateUuid 0).
Proof.
  destruct (Sample.prepare frenchRequest) as [[r st']|e] eqn:E;
    [|vm_compute in E; discriminate].
  destruct (prepare_default_headers Sample.serialize Sample.generateUuid frenchRequest
              Sample.descriptor.1 Sample.descriptor.2 r st' E) as (Ha & Hr & _).
  simpl. rewrite Ha, Hr. split; reflexivity.
Defined.

(** C9 as stated fails: the caller set accept-language, to the empty
    value, the header is present once the caller's headers are merged, and
    prepare overwrites it with en-US. *)
Lemma empty_header_is_overwritten :
  HttpHeaders.get (mergedHeaders emptyLanguage Sample.descriptor.1 Sample.descriptor.2)
    "accept-language" = Some "" ∧
  Sample.headerOf (Sample.prepare emptyLanguage) "accept-language" = Some "en-US".
Proof. split; vm_compute; reflexivity. Qed.

(** ** clone *)

Lemma clone_unfold this st :
  clone this st
  = ({| url := url this;
        method := if String.eqb (method this) "" then "GET" else method this;
        body := body this;
        headers := fresh (dom (headerObjs st));
        rawResponse := rawResponse this;
        formData := formData this;
        query := query this;
        operationSpec := operationSpec this;
        abortSignal := abortSignal this;
        onUploadProgress := onUploadProgress this;
        onDownloadProgress := onDownloadProgress this |},
     setHeadersAt st (fresh (dom (headerObjs st))) (headersAt st (headers this))).
Proof. reflexivity. Qed.

(** C10, amended: for a descriptor whose header container is in the store,
    clone returns a descriptor over a new container with the same entries;
    whatever is stored later in the container of the clone leaves the
    container of the original as it was, and the other way round; body,
    query, formData, operationSpec, abortSignal and the two progress
    callbacks are the same references, and no query dictionary or other
    header container changes; url and rawResponse are copied, and method is
    copied unless it is empty, in which case the constructor puts GET.  clone
    has no error result: it validates nothing. *)
Theorem clone_spec this st :
  is_Some (headerObjs st !! headers this) ->
  let r := (clone this st).1 in
  let st' := (clone this st).2 in
  headers r ≠ headers this ∧
  headersAt st' (headers r) = headersAt st (headers this) ∧
  (∀ l, l ≠ headers r -> headersAt st' l = headersAt st l) ∧
  (∀ h, headersAt (setHeadersAt st' (headers r) h) (headers this)
        = headersAt st (headers this)) ∧
  (∀ h, headersAt (setHeadersAt st' (headers this) h) (headers r)
        = headersAt st (headers this)) ∧
  (body r = body this ∧ query r = query this ∧ formData r = formData this ∧
   operationSpec r = operationSpec this ∧ abortSignal r = abortSignal this ∧
   onUploadProgress r = onUploadProgress this ∧
   onDownloadProgress r = onDownloadProgress this ∧
   queryObjs st' = queryObjs st) ∧
  (url r = url this ∧ rawResponse r = rawResponse this ∧
   method r = if String.eqb (method this) "" then "GET" else method this).
Proof.
  intros Hin r st'. subst r st'. rewrite clone_unfold. simpl.
  assert (Hne : fresh (dom (headerObjs st)) ≠ headers this).
  { intros E. apply elem_of_dom in Hin. rewrite <- E in Hin.
    exact (is_fresh (dom (headerObjs st)) Hin). }
  unfold headersAt, setHeadersAt. simpl.
  split; [exact Hne|].
  split; [apply lookup_total_insert_eq|].
  split; [intros l Hl; now apply lookup_total_insert_ne|].
  split; [intros h; rewrite !lookup_total_insert_ne by assumption; reflexivity|].
  split; [intros h; rewrite lookup_total_insert_ne by (now apply not_eq_sym);
          apply lookup_total_insert_eq|].
  repeat split.
Qed.

Lemma clone_spec_witness :
  headers (clone Sample.descriptor.1 Sample.descriptor.2).1 ≠ headers Sample.descriptor.1 ∧
  method (clone Sample.descriptor.1 Sample.descriptor.2).1 = "GET".
Proof.
  assert (Hin : is_Some (headerObjs Sample.descriptor.2 !! headers Sample.descriptor.1)).
  { vm_compute. eauto. }
  destruct (clone_spec Sample.descriptor.1 Sample.descriptor.2 Hin)
    as (Hne & _ & _ & _ & _ & _ & _ & _ & Hm).
  split; [exact Hne | exact Hm].
Defined.

(** C10 as stated fails on the method: the descriptor that
    prepare({ method: "", url: "http://h" }) returns has the empty method,
    and its clone has the method GET. *)
Lemma clone_replaces_empty_method :
  ∃ r st',
    Sample.prepare (Sample.withUrl "" "http://h") = Ok (r, st') ∧
    method r = "" ∧
    method (clone r st').1 = "GET" ∧
    method (clone r st').1 ≠ method r.
Proof.
  destruct (Sample.prepare (Sample.withUrl "" "http://h")) as [[r st']|e] eqn:E;
    vm_compute in E; [|discriminate].
  injection E as <- <-. eexists _, _. split; [reflexivity|].
  rewrite clone_unfold. simpl. repeat split. discriminate.
Qed.

(** ** Further properties: validation *)

Lemma append_nonempty a b : a ≠ "" -> a +:+ b ≠ "".
Proof. destruct a; [contradiction | discriminate]. Qed.

Lemma toUpperCase_nonempty s : s ≠ "" -> Js.toUpperCase s ≠ "".
Proof. destruct s; [contradiction | discriminate]. Qed.

Lemma checkOptions_Ok_not_both o :
  checkOptions o = Ok () ->
  JsV.truthy (Options.url o) && JsV.truthy (Options.pathTemplate o) = false.
Proof.
  unfold checkOptions. destruct (_ || _); [discriminate|].
  destruct (JsV.truthy (Options.url o) && JsV.truthy (Options.pathTemplate o));
    [discriminate | reflexivity].
Qed.

Lemma appendQueryParameters_nonempty o u q st u' q' st' :
  u ≠ "" -> appendQueryParameters o u q st = Ok (u', q', st') -> u' ≠ "".
Proof.
  intros Hu. unfold appendQueryParameters.
  destruct (JsV.truthy _); [|now intros [= <- _ _]].
  destruct (Options.queryParameters o); try discriminate.
  intros ([qs m] & _ & H)%bind_Ok. simpl in H. injection H as <- _ _.
  apply append_nonempty. destruct (needsQuestionMark u); [now apply append_nonempty | exact Hu].
Qed.

Section Validation.

Variable serialize : JsValue -> JsValue -> JsValue -> string -> Result JsValue.
Variable generateUuid : nat -> string.

(** X1: a descriptor that prepare returns for a non-empty method and a
    truthy options.url passes validateRequestProperties. *)
Theorem validate_after_prepare_with_url o this st r st' s :
  Options.method o = JsString s -> s ≠ "" ->
  JsV.truthy (Options.url o) = true ->
  prepare serialize generateUuid (Some o) this st = Ok (r, st') ->
  validateRequestProperties r = Ok ().
Proof.
  intros Hm Hs Hu
    (u1 & m & u2 & u3 & q3 & st3 & b & Hck & Hsu & Hsm & Hcu & Hq & _ & ->)%prepare_inv.
  apply checkOptions_Ok_not_both in Hck. rewrite Hu in Hck. simpl in Hck.
  unfold setUrl in Hsu. rewrite Hu in Hsu.
  unfold constructUrl in Hcu. rewrite Hck in Hcu. injection Hcu as <-.
  destruct (Options.url o) as [| | |u|]; try discriminate. injection Hsu as <-.
  apply truthy_JsString in Hu.
  pose proof (appendQueryParameters_nonempty _ _ _ _ _ _ _ Hu Hq) as Hu3.
  rewrite (setMethod_string _ _ Hm) in Hsm.
  destruct (negb (String.eqb s "") && _); [discriminate|]. injection Hsm as <-.
  unfold validateRequestProperties. simpl.
  destruct (String.eqb_spec (Js.toUpperCase s) "") as [E|_];
    [now apply toUpperCase_nonempty in E|].
  destruct (String.eqb_spec u3 ""); [contradiction | reflexivity].
Qed.

(** X2: a descriptor that prepare returns for the empty method is rejected
    by validateRequestProperties for its missing method. *)
Theorem validate_after_prepare_with_empty_method o this st r st' :
  Options.method o = JsString "" ->
  prepare serialize generateUuid (Some o) this st = Ok (r, st') ->
  validateRequestProperties r = Throw MethodRequired.
Proof.
  intros Hm
    (u1 & m & u2 & u3 & q3 & st3 & b & _ & _ & Hsm & _ & _ & _ & ->)%prepare_inv.
  rewrite (setMethod_string _ _ Hm) in Hsm. simpl in Hsm. injection Hsm as <-.
  reflexivity.
Qed.


End Validation.

Lemma validate_after_prepare_with_url_witness :
  ∃ r st', Sample.prepare appendToQuery = Ok (r, st') ∧
           validateRequestProperties r = Ok ().
Proof.
  destruct (Sample.prepare appendToQuery) as [[r st']|e] eqn:E;
    [|vm_compute in E; discriminate].
  exists r, st'. split; [reflexivity|].
  apply (validate_after_prepare_with_url Sample.serialize Sample.generateUuid
           appendToQuery Sample.descriptor.1 Sample.descriptor.2 r st' "GET");
    [reflexivity | discriminate | reflexivity | exact E].
Defined.

Lemma validate_after_prepare_with_empty_method_witness :
  ∃ r st', Sample.prepare (Sample.withUrl "" "http://h") = Ok (r, st') ∧
           validateRequestProperties r = Throw MethodRequired.
Proof.
  destruct (Sample.prepare (Sample.withUrl "" "http://h")) as [[r st']|e] eqn:E;
    [|vm_compute in E; discriminate].
  exists r, st'. split; [reflexivity|].
  apply (validate_after_prepare_with_empty_method Sample.serialize Sample.generateUuid
           (Sample.withUrl "" "http://h") Sample.descriptor.1 Sample.descriptor.2 r st');
    [reflexivity | exact E].
Defined.


(** X3: a descriptor just constructed never lacks a method (the
    constructor puts GET for a method left out or empty), so
    validateRequestProperties rejects it exactly when the url was left out or
    is empty, and then for the url. *)
Theorem validate_after_construction url method body query headers rawResponse
    abortSignal onUploadProgress onDownloadProgress st :
  validateRequestProperties
    (newWebResource url method body query headers rawResponse
       abortSignal onUploadProgress onDownloadProgress st).1
  = match url with
    | Some u => if String.eqb u "" then Throw UrlRequired else Ok ()
    | None => Throw UrlRequired
    end.
Proof.
  unfold newWebResource, validateRequestProperties.
  destruct headers as [raw|l], method as [[|c m]|], url as [[|d u]|]; reflexivity.
Qed.

(** X4: the clone of any descriptor has a method, so
    validateRequestProperties rejects a clone exactly when its url is empty:
    the clone of a descriptor with an empty method and a url passes where the
    original fails. *)
Theorem validate_after_clone this st :
  validateRequestProperties (clone this st).1
  = if String.eqb (url this) "" then Throw UrlRequired else Ok ().
Proof.
  rewrite clone_unfold. unfold validateRequestProperties. simpl.
  destruct (method this); reflexivity.
Qed.

(** ** Further properties: template resolution *)

Lemma constructUrl_template o u pathTemplate :
  Options.pathTemplate o = JsString pathTemplate -> pathTemplate ≠ "" ->
  constructUrl o u
  = match Template.segments (joinUrl (effectiveBaseUrl o) pathTemplate) with
    | [] => Ok (joinUrl (effectiveBaseUrl o) pathTemplate)
    | items =>
        match Options.pathParameters o with
        | None => Throw (PathParametersRequired pathTemplate)
        | Some pp =>
            substituteAll pathTemplate pp items (joinUrl (effectiveBaseUrl o) pathTemplate)
        end
    end.
Proof.
  intros Hpt Hne. unfold constructUrl.
  now rewrite Hpt, (proj2 (truthy_JsString _) Hne).
Qed.

Lemma resolvedUrl_without_url o this :
  JsV.truthy (Options.url o) = false ->
  resolvedUrl o this = constructUrl o (url this).
Proof. intros Hu. unfold resolvedUrl, setUrl. now rewrite Hu. Qed.

Lemma joinUrl_relative baseUrl pathTemplate :
  joinUrl baseUrl pathTemplate
  = (baseUrl +:+ (if Js.endsWith "/" baseUrl then "" else "/"))
    +:+ relativeTemplate pathTemplate.
Proof. unfold joinUrl. now rewrite relativeTemplate_slice, append_assoc. Qed.

Lemma segments_no_brace s : Js.hasChar "{" s = false -> Template.segments s = [].
Proof.
  intros H. rewrite <- (append_empty_r s). now rewrite segments_after_prefix.
Qed.

Lemma segments_with_placeholder before n after :
  isPlaceholderName n ->
  Template.segments (before +:+ "{" +:+ n +:+ "}" +:+ after) ≠ [].
Proof.
  intros Hn. induction before as [|c before IH].
  - change (Template.segments ("{" +:+ n +:+ "}" +:+ after) ≠ []).
    now rewrite (segments_placeholder _ _ Hn).
  - change (match Template.placeholderAt
                   (String c (before +:+ "{" +:+ n +:+ "}" +:+ after)) with
            | Some item => item :: Template.segments (before +:+ "{" +:+ n +:+ "}" +:+ after)
            | None => Template.segments (before +:+ "{" +:+ n +:+ "}" +:+ after)
            end ≠ []).
    destruct (Template.placeholderAt _); [discriminate | exact IH].
Qed.

Lemma substitute_Ok_parameter pathTemplate pp url item url' :
  substitute pathTemplate pp url item = Ok url' ->
  (∃ v, JsV.lookupProp pp (Js.slice1m1 item) = JsString v) ∨
  (∃ props, JsV.lookupProp pp (Js.slice1m1 item) = JsObject props ∧
            JsV.truthy (JsV.lookupProp props "value") = true).
Proof.
  unfold substitute.
  destruct (member_cases pp (Js.slice1m1 item)) as [-> | [_ ->]];
    [|simpl; discriminate].
  destruct (JsV.lookupProp pp (Js.slice1m1 item)) as [| |b|v|props]; simpl;
    try discriminate.
  - intros _. left. now exists v.
  - destruct (JsV.truthy (JsV.lookupProp props "value")) eqn:Ev; simpl; [|discriminate].
    intros _. right. exists props. split; [reflexivity | exact Ev].
Qed.

Lemma substituteAll_Ok_parameters pathTemplate pp items : ∀ url url',
  substituteAll pathTemplate pp items url = Ok url' ->
  ∀ item, item ∈ items ->
    (∃ v, JsV.lookupProp pp (Js.slice1m1 item) = JsString v) ∨
    (∃ props, JsV.lookupProp pp (Js.slice1m1 item) = JsObject props ∧
              JsV.truthy (JsV.lookupProp props "value") = true).
Proof.
  induction items as [|i items IH]; intros url url' H item Hin; [inversion Hin|].
  simpl in H. apply bind_Ok in H as (u1 & H1 & H2).
  apply elem_of_cons in Hin as [-> | Hin].
  - eapply substitute_Ok_parameter; eassumption.
  - eapply IH; eassumption.
Qed.



Section TemplateFurther.

Variable serialize : JsValue -> JsValue -> JsValue -> string -> Result JsValue.
Variable generateUuid : nat -> string.

(** X6: a path template with a placeholder and no pathParameters fails
    with PathParametersRequired, once the method and the url checks have
    passed. *)
Theorem prepare_template_without_parameters o this st m pathTemplate before n after :
  Options.method o = JsString m ->
  isValidMethod (Js.toUpperCase m) = true ->
  JsV.truthy (Options.url o) = false ->
  Options.pathTemplate o = JsString pathTemplate ->
  relativeTemplate pathTemplate = before +:+ "{" +:+ n +:+ "}" +:+ after ->
  isPlaceholderName n ->
  Options.pathParameters o = None ->
  prepare serialize generateUuid (Some o) this st
  = Throw (PathParametersRequired pathTemplate).
Proof.
  intros Hm Hv Hu Hpt Hrel Hn Hpp.
  assert (Hne : pathTemplate ≠ "").
  { intros ->. destruct before; discriminate. }
  unfold prepare.
  rewrite checkOptions_method_string by (now rewrite Hm).
  rewrite Hu, Hpt. simpl.
  unfold setUrl. rewrite Hu. simpl.
  rewrite (setMethod_string _ _ Hm), Hv, andb_false_r. simpl.
  rewrite (constructUrl_template _ _ _ Hpt Hne), Hpp.
  rewrite joinUrl_relative, Hrel.
  rewrite <- (append_assoc _ before).
  pose proof (segments_with_placeholder
                ((effectiveBaseUrl o
                  +:+ (if Js.endsWith "/" (effectiveBaseUrl o) then "" else "/"))
                 +:+ before) n after Hn) as Hseg.
  destruct (Template.segments _); [contradiction | reflexivity].
Qed.

(** X7: when prepare succeeds on a path template, every placeholder of the
    URL of line 141 has a parameter in pathParameters that is a string or an
    object with a truthy value: a missing parameter, a parameter of another
    type and a wrapper without a value all make prepare fail. *)
Theorem prepare_template_parameters o this st r st' pathTemplate item :
  Options.pathTemplate o = JsString pathTemplate -> pathTemplate ≠ "" ->
  prepare serialize generateUuid (Some o) this st = Ok (r, st') ->
  item ∈ Template.segments (joinUrl (effectiveBaseUrl o) pathTemplate) ->
  ∃ pp, Options.pathParameters o = Some pp ∧
    ((∃ v, JsV.lookupProp pp (Js.slice1m1 item) = JsString v) ∨
     (∃ props, JsV.lookupProp pp (Js.slice1m1 item) = JsObject props ∧
               JsV.truthy (JsV.lookupProp props "value") = true)).
Proof.
  intros Hpt Hne
    (u1 & m & u2 & u3 & q3 & st3 & b & _ & _ & _ & Hcu & _ & _ & _)%prepare_inv Hin.
  rewrite (constructUrl_template _ _ _ Hpt Hne) in Hcu.
  destruct (Template.segments _) as [|i items] eqn:Es; [inversion Hin|].
  destruct (Options.pathParameters o) as [pp|]; [|discriminate].
  exists pp. split; [reflexivity|].
  eapply substituteAll_Ok_parameters; eassumption.
Qed.


Lemma resolvedUrl_without_braces o this pathTemplate :
  Options.pathTemplate o = JsString pathTemplate -> pathTemplate ≠ "" ->
  JsV.truthy (Options.url o) = false ->
  Js.hasChar "{" (effectiveBaseUrl o) = false ->
  Js.hasChar "{" pathTemplate = false ->
  resolvedUrl o this
  = Ok (effectiveBaseUrl o
        +:+ (if Js.endsWith "/" (effectiveBaseUrl o) then "" else "/")
        +:+ relativeTemplate pathTemplate).
Proof.
  intros Hpt Hne Hu Hbase Ht.
  rewrite (resolvedUrl_without_url _ _ Hu), (constructUrl_template _ _ _ Hpt Hne).
  rewrite joinUrl_relative, segments_no_brace; [now rewrite append_assoc|].
  rewrite !hasChar_app, Hbase.
  assert (Hrel : Js.hasChar "{" (relativeTemplate pathTemplate) = false).
  { rewrite <- relativeTemplate_slice.
    destruct (Js.startsWith "/" pathTemplate); [|exact Ht].
    destruct pathTemplate as [|c t]; [reflexivity|].
    simpl in Ht. now apply orb_false_elim in Ht as [_ Ht']. }
  rewrite Hrel. now destruct (Js.endsWith "/" (effectiveBaseUrl o)).
Qed.

(** X9: a non-empty path template and a base URL without an opening brace
    resolve to the base joined to the template by exactly one slash (none
    added when the base ends in one, one leading slash of the template
    dropped), whatever pathParameters holds: they are not required and not
    looked at. *)
Theorem prepare_template_without_placeholders o this st r st' pathTemplate :
  Options.pathTemplate o = JsString pathTemplate -> pathTemplate ≠ "" ->
  Js.hasChar "{" (effectiveBaseUrl o) = false ->
  Js.hasChar "{" pathTemplate = false ->
  JsV.truthy (Options.queryParameters o) = false ->
  prepare serialize generateUuid (Some o) this st = Ok (r, st') ->
  url r = effectiveBaseUrl o
          +:+ (if Js.endsWith "/" (effectiveBaseUrl o) then "" else "/")
          +:+ relativeTemplate pathTemplate.
Proof.
  intros Hpt Hne Hbase Ht Hqp H.
  pose proof (prepare_inv _ _ _ _ _ _ _ H)
    as (u1 & m & u2 & u3 & q3 & st3 & b & Hck & _).
  apply checkOptions_Ok_not_both in Hck.
  rewrite Hpt, (proj2 (truthy_JsString _) Hne), andb_true_r in Hck.
  apply prepare_resolvedUrl in H as (u & Hu' & Hq).
  rewrite (resolvedUrl_without_braces _ _ _ Hpt Hne Hck Hbase Ht) in Hu'.
  injection Hu' as <-. now apply Hq.
Qed.

End TemplateFurther.

Lemma prepare_template_without_parameters_witness :
  Sample.prepare templateOnly = Throw (PathParametersRequired "/a/{x}").
Proof.
  apply (prepare_template_without_parameters Sample.serialize Sample.generateUuid
           templateOnly Sample.descriptor.1 Sample.descriptor.2 "GET" "/a/{x}"
           "a/" "x" "");
    try reflexivity.
  exists "x", "", "". repeat split.
Defined.

Lemma prepare_template_parameters_witness :
  ∃ pp, Options.pathParameters wrappedTemplate = Some pp ∧
    ((∃ v, JsV.lookupProp pp (Js.slice1m1 "{y}") = JsString v) ∨
     (∃ props, JsV.lookupProp pp (Js.slice1m1 "{y}") = JsObject props ∧
               JsV.truthy (JsV.lookupProp props "value") = true)).
Proof.
  destruct (Sample.prepare wrappedTemplate) as [[r st']|e] eqn:E;
    [|vm_compute in E; discriminate].
  apply (prepare_template_parameters Sample.serialize Sample.generateUuid
           wrappedTemplate Sample.descriptor.1 Sample.descriptor.2 r st' "/a/{x}/{y}");
    [reflexivity | discriminate | exact E |].
  vm_compute. right. left.
Defined.


(** { method: "GET", pathTemplate: "/a/b" } *)
Lemma prepare_template_without_placeholders_witness :
  ∃ r st',
    Sample.prepare
      (Sample.options (JsString "GET") JsUndefined (JsString "/a/b") None
         JsUndefined None JsUndefined JsUndefined false) = Ok (r, st') ∧
    url r = "https://management.azure.com/a/b".
Proof.
  destruct (Sample.prepare _) as [[r st']|e] eqn:E; [|vm_compute in E; discriminate].
  exists r, st'. split; [reflexivity|].
  apply (prepare_template_without_placeholders Sample.serialize Sample.generateUuid
           (Sample.options (JsString "GET") JsUndefined (JsString "/a/b") None
              JsUndefined None JsUndefined JsUndefined false)
           Sample.descriptor.1 Sample.descriptor.2 r st' "/a/b");
    [reflexivity | discriminate | reflexivity | reflexivity | reflexivity | exact E].
Defined.

(** ** Further properties: percent-encoded parameters add no delimiter *)

Lemma countChar_app c a b : countChar c (a +:+ b) = countChar c a + countChar c b.
Proof. induction a as [|x a IH]; simpl; [reflexivity | rewrite IH; lia]. Qed.

Lemma prefix_split pat : ∀ s,
  String.prefix pat s = true -> s = pat +:+ Js.dropChars (String.length pat) s.
Proof.
  induction pat as [|c pat IH]; intros s H; [now destruct s|].
  destruct s as [|d s]; [discriminate|]. simpl in H.
  destruct (ascii_dec c d) as [<-|]; [|discriminate].
  simpl. f_equal. now apply IH.
Qed.

Lemma splitAtFirst_Some pat : ∀ s before after,
  Js.splitAtFirst pat s = Some (before, after) -> s = before +:+ pat +:+ after.
Proof.
  induction s as [|x s IH]; intros before after H.
  - unfold Js.splitAtFirst in H.
    destruct (String.prefix pat "") eqn:Ep; [|discriminate].
    injection H as <- <-. now apply prefix_split.
  - rewrite splitAtFirst_cons in H.
    destruct (String.prefix pat (String x s)) eqn:Ep.
    + injection H as <- <-. now apply prefix_split.
    + destruct (Js.splitAtFirst pat s) as [[b a]|]; [|discriminate].
      injection H as <- <-. simpl. f_equal. now apply IH.
Qed.

(** Replacing a text without [c] by a text without [c] and without a
    dollar keeps the number of [c], wherever the replaced occurrence lies and
    also when there is none. *)
Lemma countChar_replace c s pat text :
  countChar c pat = 0 -> Js.hasChar "$" text = false -> countChar c text = 0 ->
  countChar c (Js.replace s pat text) = countChar c s.
Proof.
  intros Hp Hd Ht. unfold Js.replace.
  destruct (Js.splitAtFirst pat s) as [[before after]|] eqn:E; [|reflexivity].
  rewrite (getSubstitution_no_dollar _ _ _ _ Hd).
  rewrite (splitAtFirst_Some _ _ _ _ E) at 1.
  rewrite !countChar_app. lia.
Qed.

Lemma delimiter_not_word : ∀ c, isDelimiter c = true -> Js.isWordChar c = false.
Proof. all_chars. Qed.

Lemma delimiter_not_space : ∀ c, isDelimiter c = true -> Js.isSpaceChar c = false.
Proof. all_chars. Qed.

Lemma delimiter_not_brace : ∀ c,
  isDelimiter c = true -> Ascii.eqb c "{" = false ∧ Ascii.eqb c "}" = false.
Proof. all_chars. Qed.

Lemma countChar_encodeChar : ∀ d, isDelimiter d = true ->
  ∀ c, countChar d (Js.encodeChar c) = 0.
Proof.
  intros d. destruct d as [[] [] [] [] [] [] [] []]; intros H; try discriminate H;
    all_chars.
Qed.

Lemma countChar_encodeURIComponent d s :
  isDelimiter d = true -> countChar d (Js.encodeURIComponent s) = 0.
Proof.
  intros Hd. induction s as [|c s IH]; simpl; [reflexivity|].
  now rewrite countChar_app, (countChar_encodeChar _ Hd), IH.
Qed.

Lemma countChar_allChars p c w :
  p c = false -> Js.allChars p w = true -> countChar c w = 0.
Proof.
  intros Hc. induction w as [|x w IH]; simpl; [reflexivity|].
  intros [Hx Hw]%andb_prop. rewrite (IH Hw).
  destruct (Ascii.eqb_spec c x) as [->|_]; [congruence | reflexivity].
Qed.

Lemma countChar_placeholder c n :
  isDelimiter c = true -> isPlaceholderName n ->
  countChar c ("{" +:+ n +:+ "}") = 0.
Proof.
  intros Hc (w1 & sp & w2 & -> & H1 & Hs & H2).
  destruct (delimiter_not_brace _ Hc) as [Ho Hcl].
  rewrite !countChar_app.
  rewrite (countChar_allChars _ _ _ (delimiter_not_word _ Hc) H1).
  rewrite (countChar_allChars _ _ _ (delimiter_not_space _ Hc) Hs).
  rewrite (countChar_allChars _ _ _ (delimiter_not_word _ Hc) H2).
  change (countChar c "{") with ((if Ascii.eqb c "{" then 1 else 0) + 0).
  change (countChar c "}") with ((if Ascii.eqb c "}" then 1 else 0) + 0).
  now rewrite Ho, Hcl.
Qed.

Lemma placeholderAt_shape s item :
  Template.placeholderAt s = Some item ->
  ∃ n, isPlaceholderName n ∧ item = "{" +:+ n +:+ "}".
Proof.
  destruct s as [|c r]; [discriminate|].
  destruct c as [[] [] [] [] [] [] [] []]; try discriminate.
  unfold Template.placeholderAt.
  destruct (Js.dropWhile Js.isWordChar _) as [|d rest]; [discriminate|].
  destruct d as [[] [] [] [] [] [] [] []]; try discriminate.
  intros [= <-].
  eexists (_ +:+ _ +:+ _). split.
  - eexists _, _, _. split; [reflexivity|]. repeat split; apply allChars_takeWhile.
  - change ("{" +:+ ?x) with (String "{" x). f_equal. now rewrite !append_assoc.
Qed.

Lemma segments_elem item : ∀ s,
  item ∈ Template.segments s -> ∃ s', Template.placeholderAt s' = Some item.
Proof.
  induction s as [|c s IH]; intros Hin; [inversion Hin|].
  change (item ∈ match Template.placeholderAt (String c s) with
                 | Some i => i :: Template.segments s
                 | None => Template.segments s
                 end) in Hin.
  destruct (Template.placeholderAt (String c s)) as [i|] eqn:E; [|now apply IH].
  apply elem_of_cons in Hin as [-> | Hin]; [eauto | now apply IH].
Qed.

Lemma countChar_segment c item s :
  isDelimiter c = true -> item ∈ Template.segments s -> countChar c item = 0.
Proof.
  intros Hc (s' & (n & Hn & ->)%placeholderAt_shape)%segments_elem.
  now apply countChar_placeholder.
Qed.

Lemma substitute_keeps_count c pathTemplate pp url item url' :
  isDelimiter c = true -> countChar c item = 0 ->
  JsV.truthy (JsV.getProp (JsV.lookupProp pp (Js.slice1m1 item)) "skipUrlEncoding")
    = false ->
  substitute pathTemplate pp url item = Ok url' ->
  countChar c url' = countChar c url.
Proof.
  intros Hc Hi Hs. unfold substitute.
  destruct (member_cases pp (Js.slice1m1 item)) as [-> | [_ ->]];
    [|simpl; discriminate].
  destruct (JsV.lookupProp pp (Js.slice1m1 item)) as [| |b|v|props]; simpl in *;
    try discriminate.
  - intros [= <-]. apply countChar_replace;
      auto using encodeURIComponent_no_dollar, countChar_encodeURIComponent.
  - rewrite Hs. destruct (negb _); [discriminate|]. intros [= <-].
    apply countChar_replace;
      auto using encodeURIComponent_no_dollar, countChar_encodeURIComponent.
Qed.

Lemma substituteAll_keeps_count c pathTemplate pp items : ∀ url url',
  isDelimiter c = true ->
  (∀ item, item ∈ items ->
     countChar c item = 0 ∧
     JsV.truthy (JsV.getProp (JsV.lookupProp pp (Js.slice1m1 item)) "skipUrlEncoding")
       = false) ->
  substituteAll pathTemplate pp items url = Ok url' ->
  countChar c url' = countChar c url.
Proof.
  induction items as [|i items IH]; intros url url' Hc Hall H.
  - now injection H as <-.
  - simpl in H. apply bind_Ok in H as (u1 & H1 & H2).
    destruct (Hall i) as [Hi Hs]; [now left|].
    rewrite (IH _ _ Hc (λ item Hin, Hall item (list_elem_of_further _ _ _ Hin)) H2).
    eapply substitute_keeps_count; eassumption.
Qed.

Section Delimiters.

Variable serialize : JsValue -> JsValue -> JsValue -> string -> Result JsValue.
Variable generateUuid : nat -> string.

(** X10: for a base URL and a path template of ASCII characters, when no
    parameter of a placeholder sets skipUrlEncoding, the URL that prepare
    resolves from the template holds as many slashes, question marks, hash
    signs, ampersands and equals signs as the base joined to the template:
    percent-encoded parameter values, of any characters, add no path segment
    and no query or fragment, for every such template, also one with stray
    braces.  (On ASCII text the placeholders of [Template.segments] are
    those the regular expression of the code finds.) *)
Theorem prepare_template_keeps_delimiters o this st r st' pathTemplate c :
  Options.pathTemplate o = JsString pathTemplate -> pathTemplate ≠ "" ->
  Js.isAscii (joinUrl (effectiveBaseUrl o) pathTemplate) = true ->
  (∀ pp item,
     Options.pathParameters o = Some pp ->
     item ∈ Template.segments (joinUrl (effectiveBaseUrl o) pathTemplate) ->
     JsV.truthy (JsV.getProp (JsV.lookupProp pp (Js.slice1m1 item)) "skipUrlEncoding")
       = false) ->
  JsV.truthy (Options.queryParameters o) = false ->
  isDelimiter c = true ->
  prepare serialize generateUuid (Some o) this st = Ok (r, st') ->
  countChar c (url r) = countChar c (joinUrl (effectiveBaseUrl o) pathTemplate).
Proof.
  intros Hpt Hne _ Hskip Hqp Hc H.
  pose proof (prepare_inv _ _ _ _ _ _ _ H)
    as (u1 & m & u2 & u3 & q3 & st3 & b & _ & _ & _ & Hcu & _).
  apply prepare_resolvedUrl in H as (u & Hu & Hq).
  destruct (Hq Hqp) as [-> _].
  unfold resolvedUrl in Hu. apply bind_Ok in Hu as (u1' & _ & Hu).
  rewrite (constructUrl_template _ _ _ Hpt Hne) in Hu.
  destruct (Template.segments _) as [|i items] eqn:Es; [now injection Hu as <-|].
  destruct (Options.pathParameters o) as [pp|]; [|discriminate].
  eapply substituteAll_keeps_count; [exact Hc | | exact Hu].
  intros item Hin. split.
  - eapply countChar_segment; [exact Hc|]. rewrite Es. exact Hin.
  - now apply Hskip.
Qed.

End Delimiters.

(** The value a/b?c of the parameter x adds no slash and no question mark
    to /a/{x}. *)
Lemma prepare_template_keeps_delimiters_witness :
  ∃ r st',
    Sample.prepare (Sample.withTemplate "GET" "/a/{x}" [("x", JsString "a/b?c")])
    = Ok (r, st') ∧
    countChar "/" (url r) = 4.
Proof.
  destruct (Sample.prepare _) as [[r st']|e] eqn:E; [|vm_compute in E; discriminate].
  exists r, st'. split; [reflexivity|].
  rewrite (prepare_template_keeps_delimiters Sample.serialize Sample.generateUuid
             (Sample.withTemplate "GET" "/a/{x}" [("x", JsString "a/b?c")])
             Sample.descriptor.1 Sample.descriptor.2 r st' "/a/{x}" "/");
    [reflexivity | reflexivity | discriminate | reflexivity | | reflexivity | reflexivity
     | exact E].
  intros pp item [= <-] Hin. vm_compute in Hin.
  apply list_elem_of_singleton in Hin as ->. reflexivity.
Defined.

(** ** Further properties: query parameters *)

Lemma appendQueryParam_object n ps qs q :
  appendQueryParam n (JsObject ps) qs q
  = if negb (JsV.truthy (JsV.lookupProp ps "value"))
    then Throw (MissingQueryParameterValue n)
    else Ok (qs ++ [renderPair (n, wrapperRecord ps)], record q (n, wrapperRecord ps)).
Proof.
  unfold appendQueryParam, wrapperRecord. simpl.
  destruct (negb _); [reflexivity|].
  now destruct (JsV.truthy (JsV.lookupProp ps "skipUrlEncoding")).
Qed.

Lemma appendQueryParam_ignored n v qs q :
  isIgnoredParam v = true -> appendQueryParam n v qs q = Ok (qs, q).
Proof.
  unfold isIgnoredParam, appendQueryParam.
  destruct (JsV.truthy v); simpl; [|reflexivity].
  destruct (String.eqb (JsV.typeof v) "string"); simpl; [discriminate|].
  destruct (String.eqb (JsV.typeof v) "object"); simpl; [discriminate | reflexivity].
Qed.




Lemma forInQueryParameters_ignored props : ∀ qs q,
  Forall (λ kv, isIgnoredParam kv.2 = true) props ->
  forInQueryParameters props qs q = Ok (qs, q).
Proof.
  induction props as [|[k x] props IH]; intros qs q H; [reflexivity|].
  apply Forall_cons in H as [Hx H]. simpl in *.
  rewrite (appendQueryParam_ignored _ _ _ _ Hx). simpl. now apply IH.
Qed.

Lemma forInQueryParameters_wrappers props : ∀ qs q qs' q',
  forInQueryParameters props qs q = Ok (qs', q') ->
  ∃ appended : list (string * JsValue),
    qs' = qs ++ (renderPair <$> appended) ∧
    q' = foldl record q appended ∧
    appended.*1 `sublist_of` props.*1 ∧
    (∀ n ps, (n, JsObject ps) ∈ props ->
       JsV.truthy (JsV.lookupProp ps "value") = true ∧ (n, wrapperRecord ps) ∈ appended).
Proof.
  induction props as [|[n v] props IH]; intros qs q qs' q' H; simpl in H.
  - injection H as <- <-. exists []. simpl. rewrite app_nil_r.
    split; [reflexivity|]. split; [reflexivity|]. split; [constructor|].
    intros ? ? Hin; inversion Hin.
  - apply bind_Ok in H as ([qs1 q1] & Hstep & H).
    apply IH in H as (app & -> & -> & Hsub & Hw).
    destruct v as [| |b|s|ps0].
    5: { rewrite appendQueryParam_object in Hstep.
         destruct (JsV.truthy (JsV.lookupProp ps0 "value")) eqn:Ev; simpl in Hstep;
           [|discriminate].
         injection Hstep as <- <-.
         exists ((n, wrapperRecord ps0) :: app). simpl. rewrite <- app_assoc.
         split; [reflexivity|]. split; [reflexivity|].
         split; [now apply sublist_skip|].
         intros n0 ps Hin. apply elem_of_cons in Hin as [[= -> ->] | Hin].
         - split; [exact Ev | now left].
         - destruct (Hw _ _ Hin) as [Hv Ha]. split; [exact Hv | now right]. }
    all: destruct (appendQueryParam_spec _ _ _ _ _ _ Hstep)
           as [(-> & -> & He) | (Ht & x & -> & -> & Hx)];
      [exists app | exists ((n, x) :: app); simpl; rewrite <- app_assoc];
      (split; [reflexivity|]); (split; [reflexivity|]);
      (split; [simpl; first [now apply sublist_cons | now apply sublist_skip]|]);
      intros n0 ps Hin; apply elem_of_cons in Hin as [Heq | Hin];
      try discriminate Heq;
      destruct (Hw _ _ Hin) as [Hv Ha]; (split; [exact Hv|]);
      first [exact Ha | now right].
Qed.

Lemma join_elem sep p : ∀ ps,
  p ∈ ps -> ∃ before after, Js.join sep ps = before +:+ p +:+ after.
Proof.
  induction ps as [|x ps IH]; intros Hin; [inversion Hin|].
  apply elem_of_cons in Hin as [-> | Hin].
  - destruct (join_cons sep x ps) as [tail ->]. now exists "", tail.
  - destruct (IH Hin) as (b & a & E). destruct ps as [|y ps]; [inversion Hin|].
    exists (x +:+ sep +:+ b), a.
    change (Js.join sep (x :: y :: ps)) with (x +:+ sep +:+ Js.join sep (y :: ps)).
    now rewrite E, !append_assoc.
Qed.

Section QueryFurther.

Variable serialize : JsValue -> JsValue -> JsValue -> string -> Result JsValue.
Variable generateUuid : nat -> string.

(** X11: when prepare succeeds on query parameters given as an object (one
    entry for a name), an entry that is a wrapper object has a truthy value;
    the URL holds its pair, name = value with the value percent-encoded unless
    skipUrlEncoding is truthy, and this.query holds under the name the value
    as it is with skipUrlEncoding and the percent-encoded text otherwise,
    except under the name __proto__, where it holds nothing. *)
Theorem prepare_query_wrapper o this st r st' qp n ps :
  Options.queryParameters o = JsObject qp ->
  NoDup qp.*1 ->
  (n, JsObject ps) ∈ qp ->
  prepare serialize generateUuid (Some o) this st = Ok (r, st') ->
  JsV.truthy (JsV.lookupProp ps "value") = true ∧
  (∃ l q, query r = Some l ∧ queryObjs st' !! l = Some q ∧
          q !! n = if String.eqb n "__proto__" then None
                   else Some (wrapperRecord ps)) ∧
  ∃ before after,
    url r = before
            +:+ (n +:+ "=" +:+
                 (if JsV.truthy (JsV.lookupProp ps "skipUrlEncoding")
                  then JsV.toString (JsV.lookupProp ps "value")
                  else Js.encodeURIComponent (JsV.toString (JsV.lookupProp ps "value"))))
            +:+ after.
Proof.
  intros Hqp Hnd Hin H.
  destruct (prepare_query_inv _ _ _ _ _ _ _ _ Hqp H)
    as (u & pairs & q & l & _ & Hloop & Hurl & Hl & Hq).
  apply forInQueryParameters_wrappers in Hloop as (app & -> & -> & Hsub & Hw).
  destruct (Hw _ _ Hin) as [Hv Ha]. simpl in Hurl.
  assert (Hnd' : NoDup app.*1) by (eapply sublist_NoDup; eassumption).
  split; [exact Hv|]. split.
  - exists l, (foldl record ∅ app). split; [exact Hl|]. split; [exact Hq|].
    destruct (String.eqb_spec n "__proto__") as [-> | Hn].
    + rewrite foldl_record_proto. apply lookup_empty.
    + now apply foldl_record_elem.
  - destruct (join_elem "&" (renderPair (n, wrapperRecord ps)) (renderPair <$> app))
      as (b & a & E); [now apply list_elem_of_fmap_2|].
    exists ((if needsQuestionMark u then u +:+ "?" else u) +:+ b), a.
    rewrite Hurl, E. unfold renderPair, wrapperRecord.
    destruct (JsV.truthy (JsV.lookupProp ps "skipUrlEncoding")); simpl;
      now rewrite !append_assoc.
Qed.


(** X13: for a valid method and a literal url, truthy query parameters
    that are no object (a string, true) make prepare fail with
    InvalidQueryParameters. *)
Theorem prepare_query_parameters_not_object o this st m u :
  Options.method o = JsString m ->
  isValidMethod (Js.toUpperCase m) = true ->
  Options.url o = JsString u -> u ≠ "" ->
  JsV.truthy (Options.pathTemplate o) = false ->
  JsV.truthy (Options.queryParameters o) = true ->
  String.eqb (JsV.typeof (Options.queryParameters o)) "object" = false ->
  prepare serialize generateUuid (Some o) this st = Throw InvalidQueryParameters.
Proof.
  intros Hm Hv Hu Hne Hpt Hq Ht.
  rewrite (prepare_literal_url _ _ _ _ _ _ _ Hm Hv Hu Hne Hpt).
  unfold appendQueryParameters. rewrite Hq.
  destruct (Options.queryParameters o); try reflexivity; discriminate.
Qed.

(** X14: when every query parameter is falsy or is neither a string nor an
    object, a successful prepare still appends the question mark to a
    non-empty URL that has none, and nothing else, and this.query is a new
    empty dictionary. *)
Theorem prepare_query_of_ignored_parameters o this st r st' u qp :
  resolvedUrl o this = Ok u -> u ≠ "" -> Js.hasChar "?" u = false ->
  Options.queryParameters o = JsObject qp ->
  Forall (λ kv, isIgnoredParam kv.2 = true) qp ->
  prepare serialize generateUuid (Some o) this st = Ok (r, st') ->
  url r = u +:+ "?" ∧
  ∃ l, query r = Some l ∧ queryObjs st' !! l = Some ∅.
Proof.
  intros Hu Hne Hq Hqp Hign H.
  destruct (prepare_query_inv _ _ _ _ _ _ _ _ Hqp H)
    as (u' & pairs & q & l & Hu' & Hloop & Hurl & Hl & Hobj).
  rewrite Hu in Hu'. injection Hu' as <-.
  rewrite (forInQueryParameters_ignored _ _ _ Hign) in Hloop.
  injection Hloop as <- <-.
  split; [|now exists l].
  rewrite Hurl. unfold needsQuestionMark. rewrite Hq.
  destruct (String.eqb_spec u ""); [contradiction|]. simpl.
  apply append_empty_r.
Qed.

(** X15: prepare never changes a query dictionary that is in the store:
    with query parameters given as an object, this.query becomes a dictionary
    that was not in the store before; without query parameters this.query and
    all dictionaries stay as they were. *)
Theorem prepare_query_dictionary_is_new o this st r st' :
  prepare serialize generateUuid (Some o) this st = Ok (r, st') ->
  (∀ l, is_Some (queryObjs st !! l) -> queryObjs st' !! l = queryObjs st !! l) ∧
  (∀ qp, Options.queryParameters o = JsObject qp ->
     ∃ l, query r = Some l ∧ queryObjs st !! l = None ∧ is_Some (queryObjs st' !! l)) ∧
  (JsV.truthy (Options.queryParameters o) = false ->
     query r = query this ∧ queryObjs st' = queryObjs st).
Proof.
  intros (u1 & m & u2 & u3 & q3 & st3 & b & _ & _ & _ & _ & Hq & Hb & ->)%prepare_inv.
  apply setHeadersAndBody_queryObjs in Hb. rewrite Hb. simpl.
  unfold appendQueryParameters in Hq.
  destruct (JsV.truthy (Options.queryParameters o)) eqn:Et.
  - destruct (Options.queryParameters o) as [| | | |qp]; try discriminate.
    apply bind_Ok in Hq as ([pairs q] & _ & Hq). simpl in Hq.
    injection Hq as _ <- <-. simpl.
    assert (Hfresh : queryObjs st !! fresh (dom (queryObjs st)) = None).
    { apply not_elem_of_dom. apply is_fresh. }
    split; [|split; [|discriminate]].
    + intros l [x Hl]. apply lookup_insert_ne. intros <-. congruence.
    + intros qp' _. eexists. split; [reflexivity|]. split; [exact Hfresh|].
      rewrite lookup_insert_eq. eauto.
  - injection Hq as _ <- <-.
    split; [reflexivity|]. split; [|auto].
    intros qp E. rewrite E in Et. discriminate.
Qed.

End QueryFurther.

Lemma prepare_query_wrapper_witness :
  ∃ r st' l q,
    Sample.prepare wrappedQuery = Ok (r, st') ∧
    query r = Some l ∧ queryObjs st' !! l = Some q ∧
    q !! "b" = Some (JsString "x%20y").
Proof.
  destruct (Sample.prepare wrappedQuery) as [[r st']|e] eqn:E;
    [|vm_compute in E; discriminate].
  assert (Hnd : NoDup
    [("a", JsObject [("value", JsString "x y"); ("skipUrlEncoding", JsBool true)]);
     ("b", JsObject [("value", JsString "x y")])].*1) by (simpl; compute_done).
  destruct (prepare_query_wrapper Sample.serialize Sample.generateUuid
              wrappedQuery Sample.descriptor.1 Sample.descriptor.2 r st' _ "b"
              [("value", JsString "x y")] eq_refl Hnd)
    as (_ & (l & q & Hl & Hq & Hb) & _); [right; now left | exact E |].
  now exists r, st', l, q.
Defined.


Lemma prepare_query_parameters_not_object_witness :
  Sample.prepare
    (Sample.options (JsString "GET") (JsString "http://h/p") JsUndefined None
       (JsString "a=1") None JsUndefined JsUndefined false)
  = Throw InvalidQueryParameters.
Proof.
  apply (prepare_query_parameters_not_object Sample.serialize Sample.generateUuid
           _ Sample.descriptor.1 Sample.descriptor.2 "GET" "http://h/p");
    try reflexivity. discriminate.
Defined.

Lemma prepare_query_of_ignored_parameters_witness :
  ∃ r st', Sample.prepare idleQuery = Ok (r, st') ∧ url r = "http://h/p?".
Proof.
  destruct (Sample.prepare idleQuery) as [[r st']|e] eqn:E;
    [|vm_compute in E; discriminate].
  exists r, st'. split; [reflexivity|].
  destruct (prepare_query_of_ignored_parameters Sample.serialize Sample.generateUuid
              idleQuery Sample.descriptor.1 Sample.descriptor.2 r st' "http://h/p"
              [("a", JsString ""); ("b", JsBool true)] eq_refl)
    as [Hurl _]; [discriminate | reflexivity | reflexivity | | exact E | exact Hurl].
  repeat constructor.
Defined.

Lemma prepare_query_dictionary_is_new_witness :
  ∃ r st' l,
    Sample.prepare ampersandQuery = Ok (r, st') ∧
    query r = Some l ∧ queryObjs Sample.descriptor.2 !! l = None.
Proof.
  destruct (Sample.prepare ampersandQuery) as [[r st']|e] eqn:E;
    [|vm_compute in E; discriminate].
  destruct (prepare_query_dictionary_is_new Sample.serialize Sample.generateUuid
              ampersandQuery Sample.descriptor.1 Sample.descriptor.2 r st' E)
    as (_ & Hnew & _).
  destruct (Hnew _ eq_refl) as (l & Hl & Hnone & _).
  now exists r, st', l.
Defined.

(** ** Further properties: headers and body *)

Lemma get_same_key (h : HttpHeaders) n n' :
  HttpHeaders.getHeaderKey n = HttpHeaders.getHeaderKey n' ->
  HttpHeaders.get h n = HttpHeaders.get h n'.
Proof. intros E. unfold HttpHeaders.get. now rewrite E. Qed.

Lemma fold_set_other n (hs : list (string * string)) : ∀ h : HttpHeaders,
  Forall (λ kv, HttpHeaders.getHeaderKey kv.1 ≠ HttpHeaders.getHeaderKey n) hs ->
  HttpHeaders.get (fold_left (λ h kv, HttpHeaders.set h kv.1 kv.2) hs h) n
  = HttpHeaders.get h n.
Proof.
  induction hs as [|[k v] hs IH]; intros h H; [reflexivity|].
  apply Forall_cons in H as [Hk H]. simpl in *.
  rewrite (IH _ H). now apply get_set_ne.
Qed.

(** The header a caller gives last for a name is the merged header. *)
Lemma mergedHeaders_last o this st hs1 n v hs2 :
  Options.headers o = Some (hs1 ++ (n, v) :: hs2) ->
  Forall (λ kv, HttpHeaders.getHeaderKey kv.1 ≠ HttpHeaders.getHeaderKey n) hs2 ->
  HttpHeaders.get (mergedHeaders o this st) n = Some v.
Proof.
  intros Hh Hlast. unfold mergedHeaders, mergeHeaders. rewrite Hh.
  rewrite fold_left_app. simpl. rewrite (fold_set_other _ _ _ Hlast).
  now apply get_set_eq.
Qed.

Lemma defaultHeaders_keeps_set generateUuid o uuids (h : HttpHeaders) n :
  isSet (HttpHeaders.get h n) = true ->
  HttpHeaders.get (defaultHeaders generateUuid o uuids h).1 n = HttpHeaders.get h n.
Proof.
  intros Hs.
  destruct (decide (HttpHeaders.getHeaderKey n = "accept-language")) as [E1|N1].
  { rewrite !(get_same_key _ n "accept-language") in * by exact E1.
    now rewrite defaultHeaders_accept_language, Hs. }
  destruct (decide (HttpHeaders.getHeaderKey n = "x-ms-client-request-id")) as [E2|N2].
  { rewrite !(get_same_key _ n "x-ms-client-request-id") in * by exact E2.
    rewrite (proj1 (defaultHeaders_request_id _ _ _ _)). now rewrite Hs. }
  destruct (decide (HttpHeaders.getHeaderKey n = "content-type")) as [E3|N3].
  { rewrite !(get_same_key _ n "Content-Type") in * by exact E3.
    now rewrite defaultHeaders_content_type, Hs. }
  now apply defaultHeaders_other.
Qed.

Lemma streamHeaders_keeps_set (h : HttpHeaders) n :
  isSet (HttpHeaders.get h n) = true ->
  HttpHeaders.getHeaderKey n ≠ "content-type" ->
  HttpHeaders.get (streamHeaders h) n = HttpHeaders.get h n.
Proof.
  intros Hs Hc.
  destruct (decide (HttpHeaders.getHeaderKey n = "transfer-encoding")) as [E|N].
  - rewrite !(get_same_key _ n "Transfer-Encoding") in * by exact E.
    now rewrite streamHeaders_transfer_encoding, Hs.
  - now apply streamHeaders_other.
Qed.

Lemma setHeadersAndBody_headerObjs serialize generateUuid o l st b st' :
  setHeadersAndBody serialize generateUuid o l st = Ok (b, st') ->
  ∃ h, headerObjs st' = <[l := h]> (headerObjs st).
Proof.
  unfold setHeadersAndBody. destruct (defaultHeaders _ _ _ _) as [h n].
  intros ([b' h'] & _ & H)%bind_Ok. injection H as _ <-. simpl. eauto.
Qed.

Lemma prepare_other_containers serialize generateUuid o this st r st' :
  prepare serialize generateUuid (Some o) this st = Ok (r, st') ->
  headers r = headers this ∧
  ∀ l, l ≠ headers this -> headersAt st' l = headersAt st l.
Proof.
  intros (u1 & m & u2 & u3 & q3 & st3 & b & _ & _ & _ & _ & Hq & Hb & ->)%prepare_inv.
  split; [reflexivity|].
  intros l Hl. apply appendQueryParameters_store in Hq as [Hh _].
  apply setHeadersAndBody_headerObjs in Hb as [h Hb].
  unfold headersAt. rewrite Hb, Hh. now apply lookup_total_insert_ne.
Qed.

Section HeadersAndBody.

Variable serialize : JsValue -> JsValue -> JsValue -> string -> Result JsValue.
Variable generateUuid : nat -> string.

(** X16: a header of the options with a non-empty value, the last one the
    options give for its name (names compared without case), is the header
    of the descriptor after prepare: no default replaces it; only
    Content-Type yields, to application/octet-stream, when the body is a
    stream.  The name and the names the options give after it are names of
    ASCII characters, for which the lower-case name is the key of the
    container. *)
Theorem prepare_keeps_caller_header o this st r st' hs1 n v hs2 :
  Options.headers o = Some (hs1 ++ (n, v) :: hs2) ->
  Js.isAscii n = true ->
  Forall (λ kv, Js.isAscii kv.1 = true) hs2 ->
  Forall (λ kv, HttpHeaders.getHeaderKey kv.1 ≠ HttpHeaders.getHeaderKey n) hs2 ->
  v ≠ "" ->
  (negb (JsV.isNullish (Options.body o)) && Options.bodyIsStream o = true ->
   HttpHeaders.getHeaderKey n ≠ "content-type") ->
  prepare serialize generateUuid (Some o) this st = Ok (r, st') ->
  HttpHeaders.get (headersAt st' (headers r)) n = Some v.
Proof.
  intros Hh _ _ Hlast Hv Hstream H.
  rewrite (prepare_final_headers _ _ _ _ _ _ _ H).
  pose proof (mergedHeaders_last o this st _ _ _ _ Hh Hlast) as Hm.
  assert (Hset : isSet (HttpHeaders.get (mergedHeaders o this st) n) = true).
  { rewrite Hm. simpl. now destruct (String.eqb_spec v ""). }
  assert (Hd : HttpHeaders.get (defaultedHeaders generateUuid o this st) n = Some v).
  { unfold defaultedHeaders. now rewrite defaultHeaders_keeps_set. }
  destruct (negb (JsV.isNullish (Options.body o)) && Options.bodyIsStream o);
    [|exact Hd].
  rewrite streamHeaders_keeps_set; [exact Hd | | now apply Hstream].
  rewrite Hd. simpl. now destruct (String.eqb_spec v "").
Qed.

(** X17: what prepare leaves alone and what it always replaces: the
    descriptor keeps its header container, rawResponse, formData and
    operationSpec; every other header container of the store is unchanged;
    abortSignal and the two progress callbacks become those of the options,
    also when the options leave them out. *)
Theorem prepare_frame o this st r st' :
  prepare serialize generateUuid (Some o) this st = Ok (r, st') ->
  headers r = headers this ∧ rawResponse r = rawResponse this ∧
  formData r = formData this ∧ operationSpec r = operationSpec this ∧
  abortSignal r = Options.abortSignal o ∧
  onUploadProgress r = Options.onUploadProgress o ∧
  onDownloadProgress r = Options.onDownloadProgress o ∧
  ∀ l, l ≠ headers this -> headersAt st' l = headersAt st l.
Proof.
  intros H. pose proof (prepare_other_containers _ _ _ _ _ _ _ H) as [_ Hother].
  apply prepare_inv in H
    as (u1 & m & u2 & u3 & q3 & st3 & b & _ & _ & _ & _ & _ & _ & ->).
  simpl in *. repeat (split; [reflexivity|]). exact Hother.
Qed.

(** X18: a body that is undefined or null is stored as it is: null is not
    turned into JSON text, no serializer runs, and the headers stay those of
    the defaulting step, without Transfer-Encoding or octet-stream even when
    bodyIsStream is set. *)
Theorem prepare_nullish_body o this st r st' :
  JsV.isNullish (Options.body o) = true ->
  prepare serialize generateUuid (Some o) this st = Ok (r, st') ->
  body r = Options.body o ∧
  headersAt st' (headers r) = defaultedHeaders generateUuid o this st ∧
  ∀ serialize', prepare serialize' generateUuid (Some o) this st = Ok (r, st').
Proof.
  intros Hn H.
  pose proof (prepare_headers_body _ _ _ _ _ _ _ H) as (_ & Hb & _).
  unfold setBody in Hb. rewrite Hn in Hb. simpl in Hb. injection Hb as Hb1 Hb2.
  split; [now rewrite <- Hb1|]. split; [now rewrite <- Hb2|].
  intros serialize'. rewrite <- H. unfold prepare.
  destruct (checkOptions o); [|reflexivity]. simpl.
  destruct (setUrl o (url this)); [|reflexivity]. simpl.
  destruct (setMethod o); [|reflexivity]. simpl.
  destruct (constructUrl o _); [|reflexivity]. simpl.
  destruct (appendQueryParameters o _ _ _) as [[[u q] st3]|]; [|reflexivity]. simpl.
  unfold setHeadersAndBody. destruct (defaultHeaders _ _ _ _) as [h k].
  unfold setBody. now rewrite Hn.
Qed.

(** X19: with a defined body that is no stream and JSON text disabled, a
    successful prepare stores what the serializer returned for the raw body
    when a serialization mapper is given, and the raw body itself when none
    is; the headers stay those of the defaulting step. *)
Theorem prepare_body_without_json_text o this st r st' :
  JsV.isNullish (Options.body o) = false ->
  Options.bodyIsStream o = false ->
  Options.disableJsonStringifyOnBody o = true ->
  prepare serialize generateUuid (Some o) this st = Ok (r, st') ->
  (JsV.truthy (Options.serializationMapper o) = true ->
     serialize (Options.mappers o) (Options.serializationMapper o) (Options.body o)
       "requestBody" = Ok (body r)) ∧
  (JsV.truthy (Options.serializationMapper o) = false -> body r = Options.body o) ∧
  headersAt st' (headers r) = defaultedHeaders generateUuid o this st.
Proof.
  intros Hn Hs Hj H.
  pose proof (prepare_headers_body _ _ _ _ _ _ _ H) as (_ & Hb & _).
  unfold setBody in Hb. rewrite Hn, Hs, Hj in Hb. simpl in Hb.
  apply bind_Ok in Hb as (b1 & Hser & Hb). injection Hb as Hb1 Hb2. subst b1.
  split; [|split; [|now rewrite <- Hb2]].
  - intros Hm. now rewrite Hm in Hser.
  - intros Hm. rewrite Hm in Hser. now injection Hser as <-.
Qed.

(** X20: for a valid method, a literal url and no query parameters, an
    error the serializer raises on a defined body that is no stream is the
    error of prepare, also when JSON text is not disabled and the
    serializer's result would be overwritten. *)
Theorem prepare_serializer_error o this st m u e :
  Options.method o = JsString m ->
  isValidMethod (Js.toUpperCase m) = true ->
  Options.url o = JsString u -> u ≠ "" ->
  JsV.truthy (Options.pathTemplate o) = false ->
  JsV.truthy (Options.queryParameters o) = false ->
  JsV.isNullish (Options.body o) = false ->
  Options.bodyIsStream o = false ->
  JsV.truthy (Options.serializationMapper o) = true ->
  serialize (Options.mappers o) (Options.serializationMapper o) (Options.body o)
    "requestBody" = Throw e ->
  prepare serialize generateUuid (Some o) this st = Throw e.
Proof.
  intros Hm Hv Hu Hne Hpt Hq Hn Hs Hmap Hser.
  rewrite (prepare_literal_url _ _ _ _ _ _ _ Hm Hv Hu Hne Hpt).
  unfold appendQueryParameters. rewrite Hq. simpl.
  unfold setHeadersAndBody. destruct (defaultHeaders _ _ _ _) as [h k].
  unfold setBody. now rewrite Hn, Hs, Hmap, Hser.
Qed.

End HeadersAndBody.

Lemma prepare_keeps_caller_header_witness :
  Sample.headerOf (Sample.prepare serializedOnly) "Content-Type" = Some "text/plain".
Proof.
  destruct (Sample.prepare serializedOnly) as [[r st']|e] eqn:E;
    [|vm_compute in E; discriminate].
  apply (prepare_keeps_caller_header Sample.serialize Sample.generateUuid
           serializedOnly Sample.descriptor.1 Sample.descriptor.2 r st'
           [] "content-type" "text/plain" []);
    [reflexivity | reflexivity | constructor | constructor | discriminate | discriminate
     | exact E].
Defined.

Lemma prepare_frame_witness :
  ∃ r st', Sample.prepare serializedOnly = Ok (r, st') ∧
           abortSignal r = Some 5 ∧ headers r = headers Sample.descriptor.1.
Proof.
  destruct (Sample.prepare serializedOnly) as [[r st']|e] eqn:E;
    [|vm_compute in E; discriminate].
  destruct (prepare_frame Sample.serialize Sample.generateUuid serializedOnly
              Sample.descriptor.1 Sample.descriptor.2 r st' E)
    as (Hh & _ & _ & _ & Ha & _).
  exists r, st'. repeat split; assumption.
Defined.

Lemma prepare_nullish_body_witness :
  ∃ r st', Sample.prepare nullBody = Ok (r, st') ∧ body r = JsNull ∧
           HttpHeaders.get (headersAt st' (headers r)) "Transfer-Encoding" = None.
Proof.
  destruct (Sample.prepare nullBody) as [[r st']|e] eqn:E;
    [|vm_compute in E; discriminate].
  destruct (prepare_nullish_body Sample.serialize Sample.generateUuid nullBody
              Sample.descriptor.1 Sample.descriptor.2 r st' eq_refl E)
    as (Hb & Hh & _).
  exists r, st'. split; [reflexivity|]. split; [exact Hb|].
  rewrite Hh. reflexivity.
Defined.

Lemma prepare_body_without_json_text_witness :
  ∃ r st', Sample.prepare serializedOnly = Ok (r, st') ∧
           body r = JsObject [("ID", JsString "7")].
Proof.
  destruct (Sample.prepare serializedOnly) as [[r st']|e] eqn:E;
    [|vm_compute in E; discriminate].
  destruct (prepare_body_without_json_text Sample.serialize Sample.generateUuid
              serializedOnly Sample.descriptor.1 Sample.descriptor.2 r st'
              eq_refl eq_refl eq_refl E) as (Hser & _ & _).
  exists r, st'. split; [reflexivity|].
  specialize (Hser eq_refl).
  change (Ok (JsObject [("ID", JsString "7")]) = Ok (body r)) in Hser.
  now injection Hser as <-.
Defined.

Lemma prepare_serializer_error_witness :
  prepare rejectingSerializer Sample.generateUuid
    (Some (Sample.options (JsString "POST") (JsString "http://h") JsUndefined None
             JsUndefined None (JsObject [("id", JsString "7")]) idMapper false))
    Sample.descriptor.1 Sample.descriptor.2
  = Throw (SerializationError "requestBody").
Proof.
  apply (prepare_serializer_error rejectingSerializer Sample.generateUuid
           _ Sample.descriptor.1 Sample.descriptor.2 "POST" "http://h");
    try reflexivity. discriminate.
Defined.

(** ** Further properties: clone and prepare together *)

Lemma prepare_default_headers_accept serialize generateUuid o this st r st' :
  prepare serialize generateUuid (Some o) this st = Ok (r, st') ->
  HttpHeaders.get (headersAt st' (headers r)) "accept-language" ≠ None.
Proof.
  intros H. rewrite (prepare_final_headers _ _ _ _ _ _ _ H).
  assert (Hd : HttpHeaders.get (defaultedHeaders generateUuid o this st)
                 "accept-language" ≠ None).
  { unfold defaultedHeaders. rewrite defaultHeaders_accept_language.
    destruct (HttpHeaders.get (mergedHeaders o this st) "accept-language") as [v|];
      simpl; [destruct (negb _)|]; discriminate. }
  destruct (_ && _); [|exact Hd].
  rewrite streamHeaders_other by (vm_compute; discriminate). exact Hd.
Qed.

Section CloneThenPrepare.

Variable serialize : JsValue -> JsValue -> JsValue -> string -> Result JsValue.
Variable generateUuid : nat -> string.

(** X21: preparing the clone of a descriptor, whose header container is in
    the store, leaves the headers of the original as they were before the
    clone was made, while the headers and defaults of the call land in the
    container of the clone. *)
Theorem prepare_on_clone_keeps_original_headers o this st r st' :
  is_Some (headerObjs st !! headers this) ->
  prepare serialize generateUuid (Some o) (clone this st).1 (clone this st).2
    = Ok (r, st') ->
  headers r ≠ headers this ∧
  headersAt st' (headers this) = headersAt st (headers this) ∧
  HttpHeaders.get (headersAt st' (headers r)) "accept-language" ≠ None.
Proof.
  intros Hin H.
  assert (Hne : fresh (dom (headerObjs st)) ≠ headers this).
  { intros E. apply elem_of_dom in Hin. rewrite <- E in Hin.
    exact (is_fresh (dom (headerObjs st)) Hin). }
  pose proof (prepare_default_headers_accept serialize generateUuid) as Hal.
  destruct (prepare_other_containers _ _ _ _ _ _ _ H) as (Hh & Hother).
  rewrite clone_unfold in Hh, Hother. simpl in Hh, Hother.
  split; [now rewrite Hh|]. split.
  - rewrite Hother by (now apply not_eq_sym).
    unfold headersAt, setHeadersAt. simpl.
    now apply lookup_total_insert_ne.
  - apply (Hal _ _ _ _ _ H).
Qed.

End CloneThenPrepare.

Lemma prepare_on_clone_keeps_original_headers_witness :
  ∃ r st',
    prepare Sample.serialize Sample.generateUuid (Some frenchRequest)
      (clone Sample.descriptor.1 Sample.descriptor.2).1
      (clone Sample.descriptor.1 Sample.descriptor.2).2 = Ok (r, st') ∧
    HttpHeaders.get (headersAt st' (headers Sample.descriptor.1)) "accept-language"
      = None ∧
    HttpHeaders.get (headersAt st' (headers r)) "accept-language" = Some "fr".
Proof.
  destruct (prepare Sample.serialize Sample.generateUuid (Some frenchRequest) _ _)
    as [[r st']|e] eqn:E; [|vm_compute in E; discriminate].
  assert (Hin : is_Some (headerObjs Sample.descriptor.2 !! headers Sample.descriptor.1)).
  { vm_compute. eauto. }
  destruct (prepare_on_clone_keeps_original_headers Sample.serialize
              Sample.generateUuid frenchRequest Sample.descriptor.1
              Sample.descriptor.2 r st' Hin E) as (_ & Horig & _).
  exists r, st'. split; [reflexivity|]. split.
  - rewrite Horig. reflexivity.
  - vm_compute in E. injection E as <- <-. reflexivity.
Defined.
